(** * LCD-PatternDisplay.asm: the button sampler, the composition updater
      and the display refresh loop of the ATmega2560 firmware.

    The data space is a flat byte-addressed memory, the registers of a
    routine are the [let]-bound names of its body, and the calls into the
    LCD driver (lcd.asm) are recorded as a list of events.  The memory
    stands for the bytes the program reserves in SRAM; the register
    file and the I/O registers (ADCSRA, ADCL, ADCH, TIFR3), which lie
    below the SRAM, are not part of it, and a store to one of them is
    not recorded.  Each routine
    is modelled as one uninterrupted run: an interrupt handler runs with
    the global interrupt flag cleared, and the foreground routines are
    taken between two interrupts.  The registers pushed on entry are
    popped on exit, and the stack lies at RAMEND, away from the variables,
    so the stack traffic is not recorded in the memory. *)

From Stdlib Require Import ZArith List Lia Bool.
Import ListNotations.
Local Open Scope Z_scope.

(** ** Machine primitives *)

Definition mem := Z -> Z.

Definition lds (a : Z) (m : mem) : Z := m a.

Definition sts (a v : Z) (m : mem) : mem :=
  fun x => if x =? a then v else m x.

(** low(k) and high(k) of the assembler. *)
Definition low (k : Z) : Z := Z.land k 255.
Definition high (k : Z) : Z := Z.land (Z.shiftr k 8) 255.

(** [inc] and [dec] on an 8-bit register. *)
Definition inc (r : Z) : Z := (r + 1) mod 256.
Definition dec (r : Z) : Z := (r - 1) mod 256.

(** Carry flag after [cp rd, rr] and after [cpc rd, rr] with carry-in [c]. *)
Definition cp (rd rr : Z) : bool := rd <? rr.
Definition cpc (rd rr : Z) (c : bool) : bool := rd <? rr + (if c then 1 else 0).

(** [cp DATAL, BOUNDARY_LOW ; cpc DATAH, BOUNDARY_HIGH ; brsh]: the branch
    is taken when the carry is clear. *)
Definition brsh_word (datal datah boundary : Z) : bool :=
  negb (cpc datah (high boundary) (cp datal (low boundary))).

(** [ldi PL, low(label) ; ldi PH, high(label) ; add PL, r ; adc PH, r0]
    with r0 cleared: the 16-bit pointer PH:PL that results. *)
Definition add_adc (label r : Z) : Z :=
  let pl := low label + r in
  let carry := if 256 <=? pl then 1 else 0 in
  ((high label + 0 + carry) mod 256) * 256 + pl mod 256.

(** ** Constants of the program *)

Definition BUTTON_RIGHT_ADC : Z := 0x032.
Definition BUTTON_UP_ADC : Z := 0x0b0.
Definition BUTTON_DOWN_ADC : Z := 0x160.
Definition BUTTON_LEFT_ADC : Z := 0x22b.

Definition DASH : Z := 0x2D.
Definition ASTERISK : Z := 0x2A.
Definition RIGHT : Z := 0x52.
Definition UP : Z := 0x55.
Definition DOWN : Z := 0x44.
Definition LEFT : Z := 0x4C.
Definition SPACE : Z := 0x20.

(** AVAILABLE_CHARSET: .db "abcdefghijklmnopqrstuvwxyz0123456789!", 0 *)
Definition AVAILABLE_CHARSET : list Z :=
  [ 97; 98; 99; 100; 101; 102; 103; 104; 105; 106; 107; 108; 109;
    110; 111; 112; 113; 114; 115; 116; 117; 118; 119; 120; 121; 122;
    48; 49; 50; 51; 52; 53; 54; 55; 56; 57;
    33;
    0 ].

(** The five button identities of the specification.  The program stores
    an identity as the letter of the button; it has no code for "none". *)
Inductive ButtonIdentity : Set :=
  | BtnNone | BtnRight | BtnUp | BtnDown | BtnLeft.

Definition identity_of_code (b : Z) : ButtonIdentity :=
  if b =? RIGHT then BtnRight
  else if b =? UP then BtnUp
  else if b =? DOWN then BtnDown
  else if b =? LEFT then BtnLeft
  else BtnNone.

(** Calls into the LCD driver, in the order they are made. *)
Inductive lcd_call : Set :=
  | lcd_gotoxy (row col : Z)
  | lcd_putchar (ch : Z).

Definition is_byte (x : Z) : Prop := 0 <= x < 256.

(** compare_words: word 1 in r17:r16, word 2 in r19:r18, the result in
    r25.  [ldi] and [clr] leave the carry of the preceding [cp] in place;
    [ldi r25, -1] loads 0xFF. *)
Definition compare_words (r16 r17 r18 r19 : Z) : Z :=
  if r17 =? r19 then
    (* compare_words_lower_byte *)
    let r25 := 0 in
    if r16 =? r18 then r25
    else
      let r25 := 1 in
      if cp r16 r18 then 255 (* compare_words_is_less_than *) else r25
  else
    let r25 := 1 in
    if cp r17 r19 then 255 (* compare_words_is_less_than *) else r25.

(** A driver call inside the 2 x 16 display, and not the terminator. *)
Definition lcd_in_range (e : lcd_call) : Prop :=
  match e with
  | lcd_gotoxy row col => 0 <= row <= 1 /\ 0 <= col <= 15
  | lcd_putchar ch => ch <> 0
  end.

(** ** The program *)

Section Firmware.

(** Address of the first byte this file reserves in the data segment; the
    bytes lcd.asm reserves before it are not known.  The internal SRAM of
    the ATmega2560 is 0x0200-0x21FF. *)
Variable DSEG : Z.
Hypothesis DSEG_range : 0x200 <= DSEG /\ DSEG + 36 <= 0x2200.

(** Program memory outside the 38 bytes of AVAILABLE_CHARSET, by offset
    from the first byte of the table. *)
Variable flash_after : Z -> Z.

(** Bit number of OCF3A in TIFR3 (m2560def.inc). *)
Variable OCF3A : Z.

(** .dseg, in the order of the reservations. *)
Definition BUTTON_IS_PRESSED : Z := DSEG.
Definition LAST_BUTTON_PRESSED : Z := DSEG + 1.
Definition TOP_LINE_CONTENT : Z := DSEG + 2.
Definition CURRENT_CHARSET_INDEX : Z := DSEG + 18.
Definition CURRENT_CHAR_INDEX : Z := DSEG + 34.
Definition CURRENT_BUTTON_PRESSED : Z := DSEG + 35.

(** [lpm temp, Z] with Z = (AVAILABLE_CHARSET<<1) + r18. *)
Definition lpm_charset (r18 : Z) : Z :=
  if (0 <=? r18) && (r18 <? 38)
  then nth (Z.to_nat r18) AVAILABLE_CHARSET 0
  else flash_after r18.

(** *** initialize_data_space and clear_data_space *)

Fixpoint loop_clear_data_space (fuel : nat) (r17 temp r18 zp : Z) (m : mem)
  : mem :=
  match fuel with
  | O => m
  | S fuel' =>
      if r17 =? temp then m
      else loop_clear_data_space fuel' (inc r17) temp r18
             ((zp + 1) mod 65536) (sts zp r18 m)
  end.

(** Parameters in the order pushed: character, low and high byte of the
    start address, number of bytes.  The counter is an 8-bit register, so
    256 passes reach every exit of the loop. *)
Definition clear_data_space (ch lo hi offset : Z) (m : mem) : mem :=
  let temp := offset in
  let zp := hi * 256 + lo in
  let r18 := ch in
  let r17 := 0 in
  loop_clear_data_space 256 r17 temp r18 zp m.

Definition initialize_data_space (m : mem) : mem :=
  let m := clear_data_space SPACE
             (low TOP_LINE_CONTENT) (high TOP_LINE_CONTENT) 16 m in
  let m := clear_data_space 0
             (low CURRENT_CHARSET_INDEX) (high CURRENT_CHARSET_INDEX) 16 m in
  sts CURRENT_CHAR_INDEX 0 m.

(** *** timer1: the button sampler

    [adcl] and [adch] are the bytes read from ADCL and ADCH once the
    conversion has completed.  The store to ADCSRA that starts the
    conversion and the loads that wait for it address I/O registers
    and leave no trace in [mem]. *)
Definition timer1 (adcl adch : Z) (m : mem) : mem :=
  let datal := adcl in
  let datah := adch in
  if brsh_word datal datah BUTTON_RIGHT_ADC then
    (* skip_right *)
    if brsh_word datal datah BUTTON_UP_ADC then
      (* skip_up *)
      if brsh_word datal datah BUTTON_DOWN_ADC then
        (* skip_down *)
        if brsh_word datal datah BUTTON_LEFT_ADC then
          (* skip_left *)
          sts BUTTON_IS_PRESSED 0 m
        else
          sts CURRENT_BUTTON_PRESSED LEFT (sts BUTTON_IS_PRESSED 1 m)
      else
        sts CURRENT_BUTTON_PRESSED DOWN (sts BUTTON_IS_PRESSED 1 m)
    else
      sts CURRENT_BUTTON_PRESSED UP (sts BUTTON_IS_PRESSED 1 m)
  else
    sts CURRENT_BUTTON_PRESSED RIGHT (sts BUTTON_IS_PRESSED 1 m).

(** *** timer4: the composition updater *)
Definition timer4 (m : mem) : mem :=
  let temp := lds BUTTON_IS_PRESSED m in
  if temp =? 0 then m (* exit_timer4_helper *)
  else
    let r17 := lds CURRENT_CHAR_INDEX m in
    let y := add_adc TOP_LINE_CONTENT r17 in
    let z := add_adc CURRENT_CHARSET_INDEX r17 in
    let r19 := lds y m in
    if lds CURRENT_BUTTON_PRESSED m =? UP then
      let temp := lds y m in
      if temp =? 0 then m
      else
        let r18 := lds z m in
        let r18 := if r19 =? SPACE then r18 (* first_up *) else inc r18 in
        let m := sts z r18 m in
        let temp := lpm_charset r18 in
        sts y temp m
    else if lds CURRENT_BUTTON_PRESSED m =? DOWN then
      let r18 := lds z m in
      if r18 =? 0 then
        (* zeroed_clear_count *)
        sts y SPACE m
      else
        let r18 := dec r18 in
        let m := sts z r18 m in
        let temp := lpm_charset r18 in
        sts y temp m
    else if lds CURRENT_BUTTON_PRESSED m =? RIGHT then
      let temp := lds CURRENT_CHAR_INDEX m in
      if temp =? 15 then m
      else sts CURRENT_CHAR_INDEX (inc temp) m
    else if lds CURRENT_BUTTON_PRESSED m =? LEFT then
      let temp := lds CURRENT_CHAR_INDEX m in
      if temp =? 0 then m
      else sts CURRENT_CHAR_INDEX (dec temp) m
    else m.

(** *** The foreground routines *)

Fixpoint clear_lcd_row_loop (fuel : nat) (r17 temp : Z) : list lcd_call :=
  match fuel with
  | O => []
  | S fuel' =>
      if temp =? 16 then []
      else lcd_gotoxy r17 temp :: lcd_putchar SPACE
             :: clear_lcd_row_loop fuel' r17 (inc temp)
  end.

Definition clear_lcd_row (row : Z) : list lcd_call :=
  clear_lcd_row_loop 256 row 0.

Definition set_char (row col : Z) (m : mem) : list lcd_call :=
  let temp := row in
  let r17 := col in
  let r19 := lds CURRENT_BUTTON_PRESSED m in
  clear_lcd_row 1 ++ [lcd_gotoxy temp r17; lcd_putchar r19].

(** test_which_button when no handler runs between its entry and its
    return; [test_which_button_irq] below has the handlers. *)
Definition test_which_button (m : mem) : mem * list lcd_call :=
  let r18 := lds LAST_BUTTON_PRESSED m in
  let r19 := lds CURRENT_BUTTON_PRESSED m in
  if r18 =? r19 then (m, []) (* last_button_pressed_same *)
  else
    let out :=
      if r19 =? RIGHT then set_char 1 3 m
      else if r19 =? UP then set_char 1 2 m
      else if r19 =? DOWN then set_char 1 1 m
      else if r19 =? LEFT then set_char 1 0 m
      else [] in
    (* set_char_end *)
    (sts LAST_BUTTON_PRESSED (lds CURRENT_BUTTON_PRESSED m) m, out).

(** [param] is the byte the caller pushed.  The routine loads it into r18
    and sets r18 to 1 or 0, but no instruction stores r18 back into the
    stack slot, so the caller pops the byte it pushed. *)
Definition set_button_press (param : Z) (m : mem)
  : Z * mem * list lcd_call :=
  let r18 := param in
  let out := [lcd_gotoxy 1 15] in
  let temp := lds BUTTON_IS_PRESSED m in
  if temp =? 0 then
    (* button_not_pressed *)
    let r18 := 0 in
    (param, m, out ++ [lcd_putchar DASH])
  else
    let r18 := 1 in
    let '(m, out') := test_which_button m in
    (param, m, out ++ [lcd_putchar ASTERISK] ++ out').

Definition set_counter (m : mem) : list lcd_call :=
  let r17 := lds CURRENT_CHAR_INDEX m in
  let z := add_adc TOP_LINE_CONTENT r17 in
  let r18 := lds z m in
  if r18 =? 0 then [] (* exit_set_counter *)
  else [lcd_gotoxy 0 r17; lcd_putchar r18].

(** One pass of polling_loop with [tifr3] the byte read from TIFR3:
    [None] when the pass jumps back without servicing.  The store that
    ends a serviced pass ([ldi temp, (1<<OCF3A)] then [sts TIFR3, temp])
    goes to an address below the SRAM and leaves no trace in [mem]. *)
Definition polling_loop (tifr3 : Z) (m : mem)
  : option (mem * list lcd_call) :=
  let temp := tifr3 in
  if Z.testbit temp OCF3A then
    let '(temp, m, out) := set_button_press temp m in
    let out' := if temp =? 0 then [] (* skip_counter *) else set_counter m in
    Some (m, out ++ out')
  else None.

(** ** The state of the specification, read from the data space *)

Definition Cursor (m : mem) : Z := lds CURRENT_CHAR_INDEX m.
Definition LineBuffer (m : mem) (c : Z) : Z := lds (TOP_LINE_CONTENT + c) m.
Definition PerColumnIndex (m : mem) (c : Z) : Z :=
  lds (CURRENT_CHARSET_INDEX + c) m.
Definition isPressed (m : mem) : bool := negb (lds BUTTON_IS_PRESSED m =? 0).
Definition currentButton (m : mem) : ButtonIdentity :=
  identity_of_code (lds CURRENT_BUTTON_PRESSED m).
Definition lastButton (m : mem) : ButtonIdentity :=
  identity_of_code (lds LAST_BUTTON_PRESSED m).

(** The identity a run of timer1 has published. *)
Definition decoded (m : mem) : ButtonIdentity :=
  if isPressed m then currentButton m else BtnNone.

(** The Button Decoder in the words of the specification. *)
Definition threshold_decode (v : Z) : ButtonIdentity :=
  if v <? 0x032 then BtnRight
  else if v <? 0x0b0 then BtnUp
  else if v <? 0x160 then BtnDown
  else if v <? 0x22b then BtnLeft
  else BtnNone.

(** The updater finds button [b] held. *)
Definition pressing (b : Z) (m : mem) : Prop :=
  lds BUTTON_IS_PRESSED m <> 0 /\ lds CURRENT_BUTTON_PRESSED m = b.

(** One sample followed by one run of the updater. *)
Definition tick (adcl adch : Z) (m : mem) : mem := timer4 (timer1 adcl adch m).

(** The rest of the data space is as before, column [c] apart. *)
Definition same_but_column (c : Z) (m m' : mem) : Prop :=
  forall a, a <> TOP_LINE_CONTENT + c -> a <> CURRENT_CHARSET_INDEX + c ->
            m' a = m a.

Definition column_ok (m : mem) (c : Z) : Prop :=
  (LineBuffer m c = SPACE /\ PerColumnIndex m c = 0)
  \/ (0 <= PerColumnIndex m c <= 37
      /\ LineBuffer m c = lpm_charset (PerColumnIndex m c)).

Definition composition_ok (m : mem) : Prop :=
  0 <= Cursor m <= 15 /\ forall c, 0 <= c <= 15 -> column_ok m c.

(** The row-1 column of each button's letter, in the words of the
    specification. *)
Definition indicator_column (b : ButtonIdentity) : Z :=
  match b with
  | BtnLeft => 0
  | BtnDown => 1
  | BtnUp => 2
  | BtnRight => 3
  | BtnNone => 0
  end.


(** The two handlers, which can run between any two instructions of a
    foreground routine: the program enables interrupts at [sei] and never
    disables them. *)
Inductive handler : Set :=
  | Timer1 (adcl adch : Z)
  | Timer4.

Definition run_handler (h : handler) (m : mem) : mem :=
  match h with
  | Timer1 adcl adch => timer1 adcl adch m
  | Timer4 => timer4 m
  end.

Definition run_handlers (hs : list handler) (m : mem) : mem :=
  fold_left (fun m h => run_handler h m) hs m.

(** test_which_button with the handlers that run inside it.  The routine
    loads CURRENT_BUTTON_PRESSED three times: at its entry, where the
    column is chosen, in set_char once the row has been cleared, where
    the letter is taken, and at set_char_end, where the last button is
    recorded.  [hs1] are the handlers that run between the first and the
    second load (or the third, when set_char is not called), [hs2] those
    between the second and the third.  A handler that runs before the
    first load or after the third has the effect of one that runs before
    the routine or after it, since no handler reads or writes
    LAST_BUTTON_PRESSED. *)
Definition test_which_button_irq (hs1 hs2 : list handler) (m : mem)
  : mem * list lcd_call :=
  let r18 := lds LAST_BUTTON_PRESSED m in
  let r19 := lds CURRENT_BUTTON_PRESSED m in
  if r18 =? r19 then (m, []) (* last_button_pressed_same *)
  else
    let m := run_handlers hs1 m in
    let out :=
      if r19 =? RIGHT then set_char 1 3 m
      else if r19 =? UP then set_char 1 2 m
      else if r19 =? DOWN then set_char 1 1 m
      else if r19 =? LEFT then set_char 1 0 m
      else [] in
    let m := run_handlers hs2 m in
    (* set_char_end *)
    (sts LAST_BUTTON_PRESSED (lds CURRENT_BUTTON_PRESSED m) m, out).

(** States reachable from startup: the data space as initialize_data_space
    leaves it, then any order of sampler runs, updater runs and passes of
    the polling loop.  The program enables interrupts before it calls
    initialize_data_space; a handler that runs before the routine returns
    is not part of this relation. *)
Inductive reachable : mem -> Prop :=
  | reach_start m0 : reachable (initialize_data_space m0)
  | reach_timer1 adcl adch m :
      reachable m -> is_byte adcl -> is_byte adch ->
      reachable (timer1 adcl adch m)
  | reach_timer4 m : reachable m -> reachable (timer4 m)
  | reach_polling tifr3 m m' out :
      reachable m -> polling_loop tifr3 m = Some (m', out) -> reachable m'.

(** ** Facts about the machine primitives *)

Lemma low_spec k : low k = k mod 256.
Proof. unfold low. change 255 with (Z.ones 8). now rewrite Z.land_ones by lia. Qed.

Lemma high_spec k : high k = (k / 256) mod 256.
Proof.
  unfold high. change 255 with (Z.ones 8).
  rewrite Z.land_ones by lia. now rewrite Z.shiftr_div_pow2 by lia.
Qed.

Lemma brsh_word_spec datal datah k :
  is_byte datal -> is_byte datah -> 0 <= k < 65536 ->
  brsh_word datal datah k = negb (datah * 256 + datal <? k).
Proof.
  unfold is_byte, brsh_word, cpc, cp. intros Hl Hh Hk.
  rewrite low_spec, high_spec. f_equal.
  pose proof (Z.div_mod k 256 ltac:(lia)) as E.
  pose proof (Z.mod_pos_bound k 256 ltac:(lia)) as Bl.
  assert (Bh : 0 <= k / 256 < 256)
    by (split; [apply Z.div_pos; lia | apply Z.div_lt_upper_bound; lia]).
  rewrite (Z.mod_small (k / 256) 256) by lia.
  destruct (Z.ltb_spec datal (k mod 256));
    match goal with |- (datah <? ?b) = _ => destruct (Z.ltb_spec datah b) end;
    destruct (Z.ltb_spec (datah * 256 + datal) k); try reflexivity; lia.
Qed.

Lemma add_adc_spec label r :
  0 <= label -> is_byte r -> label + r < 65536 ->
  add_adc label r = label + r.
Proof.
  unfold is_byte, add_adc. intros Hl Hr Hs.
  rewrite low_spec, high_spec.
  pose proof (Z.div_mod label 256 ltac:(lia)) as E.
  pose proof (Z.mod_pos_bound label 256 ltac:(lia)) as Bl.
  assert (Bh : 0 <= label / 256 < 256)
    by (split; [apply Z.div_pos; lia | apply Z.div_lt_upper_bound; lia]).
  rewrite (Z.mod_small (label / 256) 256) by lia.
  destruct (Z.leb_spec 256 (label mod 256 + r)) as [Hc | Hc].
  - assert (label / 256 + 0 + 1 < 256) by lia.
    rewrite (Z.mod_small (label / 256 + 0 + 1) 256) by lia.
    assert (Em : (label mod 256 + r) mod 256 = label mod 256 + r - 256).
    { symmetry. apply (Z.mod_unique _ _ 1); lia. }
    lia.
  - rewrite (Z.mod_small (label / 256 + 0 + 0) 256) by lia.
    rewrite (Z.mod_small (label mod 256 + r) 256) by lia. lia.
Qed.

(** ** Facts about the data space *)

Lemma lds_sts a b v m : lds a (sts b v m) = if a =? b then v else lds a m.
Proof. reflexivity. Qed.

Lemma lds_sts_same a v m : lds a (sts a v m) = v.
Proof. rewrite lds_sts. now rewrite Z.eqb_refl. Qed.

Lemma lds_sts_other a b v m : a <> b -> lds a (sts b v m) = lds a m.
Proof. intros H. rewrite lds_sts. now destruct (Z.eqb_spec a b). Qed.

Lemma word_of_label k : 0 <= k < 65536 -> high k * 256 + low k = k.
Proof.
  intros Hk. rewrite low_spec, high_spec.
  assert (Bh : 0 <= k / 256 < 256)
    by (split; [apply Z.div_pos; lia | apply Z.div_lt_upper_bound; lia]).
  rewrite (Z.mod_small (k / 256) 256) by lia.
  pose proof (Z.div_mod k 256 ltac:(lia)). lia.
Qed.

Lemma top_line_pointer c :
  is_byte c -> add_adc TOP_LINE_CONTENT c = TOP_LINE_CONTENT + c.
Proof.
  intros Hc. unfold is_byte, TOP_LINE_CONTENT in *.
  apply add_adc_spec; unfold is_byte; lia.
Qed.

Lemma charset_index_pointer c :
  is_byte c -> add_adc CURRENT_CHARSET_INDEX c = CURRENT_CHARSET_INDEX + c.
Proof.
  intros Hc. unfold is_byte, CURRENT_CHARSET_INDEX in *.
  apply add_adc_spec; unfold is_byte; lia.
Qed.

(** The loop of clear_data_space stores [r18] at the [temp - r17] addresses
    from [zp] on and leaves through its exit test. *)
Lemma loop_clear_data_space_spec fuel :
  forall r17 temp r18 zp m a,
    0 <= r17 <= temp -> temp < 256 ->
    (Z.to_nat (temp - r17) < fuel)%nat ->
    0 <= zp -> zp + (temp - r17) < 65536 ->
    loop_clear_data_space fuel r17 temp r18 zp m a
    = if (zp <=? a) && (a <? zp + (temp - r17)) then r18 else m a.
Proof.
  induction fuel as [| fuel IH]; intros r17 temp r18 zp m a Hr Ht Hf Hz Hw.
  - lia.
  - cbn [loop_clear_data_space].
    destruct (Z.eqb_spec r17 temp) as [-> | Hne].
    + replace (temp - temp) with 0 by lia.
      destruct (Z.leb_spec zp a); destruct (Z.ltb_spec a (zp + 0));
        cbn; try reflexivity; lia.
    + unfold inc. rewrite (Z.mod_small (r17 + 1) 256) by lia.
      rewrite (Z.mod_small (zp + 1) 65536) by lia.
      rewrite IH by lia. unfold sts.
      destruct (Z.leb_spec (zp + 1) a); destruct (Z.ltb_spec a (zp + 1 + (temp - (r17 + 1))));
        destruct (Z.leb_spec zp a); destruct (Z.ltb_spec a (zp + (temp - r17)));
        destruct (Z.eqb_spec a zp); cbn; try reflexivity; lia.
Qed.

Lemma clear_data_space_spec ch label m a :
  0 <= label -> label + 16 < 65536 ->
  clear_data_space ch (low label) (high label) 16 m a
  = if (label <=? a) && (a <? label + 16) then ch else m a.
Proof.
  intros Hl Hu. unfold clear_data_space.
  rewrite word_of_label by lia.
  rewrite loop_clear_data_space_spec; [reflexivity | lia | lia | | lia | lia].
  change (Z.to_nat (16 - 0)) with 16%nat. lia.
Qed.

Lemma initialize_data_space_spec m0 a :
  initialize_data_space m0 a
  = if a =? CURRENT_CHAR_INDEX then 0
    else if (CURRENT_CHARSET_INDEX <=? a) && (a <? CURRENT_CHARSET_INDEX + 16)
    then 0
    else if (TOP_LINE_CONTENT <=? a) && (a <? TOP_LINE_CONTENT + 16)
    then SPACE
    else m0 a.
Proof.
  unfold initialize_data_space, sts.
  destruct (Z.eqb_spec a CURRENT_CHAR_INDEX); [reflexivity |].
  unfold CURRENT_CHARSET_INDEX, TOP_LINE_CONTENT in *.
  rewrite !clear_data_space_spec by lia. reflexivity.
Qed.

(** ** Facts about the character table *)

Lemma charset_in_table i :
  0 <= i <= 37 -> lpm_charset i = nth (Z.to_nat i) AVAILABLE_CHARSET 0.
Proof.
  intros Hi. unfold lpm_charset.
  destruct (Z.leb_spec 0 i); destruct (Z.ltb_spec i 38); cbn; try reflexivity; lia.
Qed.

Lemma charset_letters i :
  0 <= i <= 36 -> lpm_charset i <> 0 /\ lpm_charset i <> SPACE.
Proof.
  intros Hi. rewrite charset_in_table by lia.
  assert (Hn : (Z.to_nat i < 37)%nat) by lia.
  generalize dependent (Z.to_nat i). intros n Hn.
  do 37 (destruct n as [| n]; [split; discriminate |]). lia.
Qed.

Lemma charset_terminator : lpm_charset 37 = 0.
Proof. reflexivity. Qed.

(** ** The sampler, branch by branch *)

Lemma timer1_spec adcl adch m :
  is_byte adcl -> is_byte adch ->
  timer1 adcl adch m
  = let v := adch * 256 + adcl in
    if v <? 0x032 then sts CURRENT_BUTTON_PRESSED RIGHT (sts BUTTON_IS_PRESSED 1 m)
    else if v <? 0x0b0 then sts CURRENT_BUTTON_PRESSED UP (sts BUTTON_IS_PRESSED 1 m)
    else if v <? 0x160 then sts CURRENT_BUTTON_PRESSED DOWN (sts BUTTON_IS_PRESSED 1 m)
    else if v <? 0x22b then sts CURRENT_BUTTON_PRESSED LEFT (sts BUTTON_IS_PRESSED 1 m)
    else sts BUTTON_IS_PRESSED 0 m.
Proof.
  intros Hl Hh. unfold timer1.
  rewrite !brsh_word_spec
    by (try assumption;
        unfold BUTTON_RIGHT_ADC, BUTTON_UP_ADC, BUTTON_DOWN_ADC, BUTTON_LEFT_ADC; lia).
  unfold BUTTON_RIGHT_ADC, BUTTON_UP_ADC, BUTTON_DOWN_ADC, BUTTON_LEFT_ADC.
  cbv zeta.
  destruct (adch * 256 + adcl <? 50); [reflexivity |].
  destruct (adch * 256 + adcl <? 176); [reflexivity |].
  destruct (adch * 256 + adcl <? 352); [reflexivity |].
  destruct (adch * 256 + adcl <? 555); reflexivity.
Qed.

(** A run of the sampler writes BUTTON_IS_PRESSED and CURRENT_BUTTON_PRESSED
    only. *)
Lemma timer1_frame adcl adch m a :
  a <> BUTTON_IS_PRESSED -> a <> CURRENT_BUTTON_PRESSED ->
  lds a (timer1 adcl adch m) = lds a m.
Proof.
  intros H1 H2. unfold timer1.
  repeat match goal with |- context [if ?b then _ else _] => destruct b end;
    now rewrite ?lds_sts_other by assumption.
Qed.

(** ** The updater, branch by branch *)

Lemma timer4_not_pressed m : lds BUTTON_IS_PRESSED m = 0 -> timer4 m = m.
Proof. intros H. unfold timer4. now rewrite H. Qed.

Lemma timer4_up m :
  pressing UP m -> is_byte (Cursor m) ->
  timer4 m
  = let c := Cursor m in
    if LineBuffer m c =? 0 then m
    else
      let i := if LineBuffer m c =? SPACE then PerColumnIndex m c
               else inc (PerColumnIndex m c) in
      sts (TOP_LINE_CONTENT + c) (lpm_charset i)
        (sts (CURRENT_CHARSET_INDEX + c) i m).
Proof.
  intros [Hp Hb] Hc. unfold timer4, Cursor, LineBuffer, PerColumnIndex in *.
  rewrite top_line_pointer, charset_index_pointer by assumption.
  destruct (Z.eqb_spec (lds BUTTON_IS_PRESSED m) 0); [contradiction |].
  rewrite Hb. reflexivity.
Qed.

Lemma timer4_down m :
  pressing DOWN m -> is_byte (Cursor m) ->
  timer4 m
  = let c := Cursor m in
    if PerColumnIndex m c =? 0 then sts (TOP_LINE_CONTENT + c) SPACE m
    else
      let i := dec (PerColumnIndex m c) in
      sts (TOP_LINE_CONTENT + c) (lpm_charset i)
        (sts (CURRENT_CHARSET_INDEX + c) i m).
Proof.
  intros [Hp Hb] Hc. unfold timer4, Cursor, LineBuffer, PerColumnIndex in *.
  rewrite top_line_pointer, charset_index_pointer by assumption.
  destruct (Z.eqb_spec (lds BUTTON_IS_PRESSED m) 0); [contradiction |].
  rewrite Hb. reflexivity.
Qed.

Lemma timer4_right m :
  pressing RIGHT m ->
  timer4 m
  = if Cursor m =? 15 then m else sts CURRENT_CHAR_INDEX (inc (Cursor m)) m.
Proof.
  intros [Hp Hb]. unfold timer4, Cursor.
  destruct (Z.eqb_spec (lds BUTTON_IS_PRESSED m) 0); [contradiction |].
  rewrite Hb. reflexivity.
Qed.

Lemma timer4_left m :
  pressing LEFT m ->
  timer4 m
  = if Cursor m =? 0 then m else sts CURRENT_CHAR_INDEX (dec (Cursor m)) m.
Proof.
  intros [Hp Hb]. unfold timer4, Cursor.
  destruct (Z.eqb_spec (lds BUTTON_IS_PRESSED m) 0); [contradiction |].
  rewrite Hb. reflexivity.
Qed.

Lemma timer4_no_button m :
  lds CURRENT_BUTTON_PRESSED m <> UP -> lds CURRENT_BUTTON_PRESSED m <> DOWN ->
  lds CURRENT_BUTTON_PRESSED m <> RIGHT -> lds CURRENT_BUTTON_PRESSED m <> LEFT ->
  timer4 m = m.
Proof.
  intros Hu Hd Hr Hl. unfold timer4.
  destruct (lds BUTTON_IS_PRESSED m =? 0); [reflexivity |].
  destruct (Z.eqb_spec (lds CURRENT_BUTTON_PRESSED m) UP); [contradiction |].
  destruct (Z.eqb_spec (lds CURRENT_BUTTON_PRESSED m) DOWN); [contradiction |].
  destruct (Z.eqb_spec (lds CURRENT_BUTTON_PRESSED m) RIGHT); [contradiction |].
  destruct (Z.eqb_spec (lds CURRENT_BUTTON_PRESSED m) LEFT); [contradiction |].
  reflexivity.
Qed.

(** The five ways a run of the updater can find the button bytes. *)
Lemma timer4_cases m :
  lds BUTTON_IS_PRESSED m = 0
  \/ pressing UP m \/ pressing DOWN m \/ pressing RIGHT m \/ pressing LEFT m
  \/ (lds CURRENT_BUTTON_PRESSED m <> UP /\ lds CURRENT_BUTTON_PRESSED m <> DOWN
      /\ lds CURRENT_BUTTON_PRESSED m <> RIGHT
      /\ lds CURRENT_BUTTON_PRESSED m <> LEFT).
Proof.
  unfold pressing.
  destruct (Z.eq_dec (lds BUTTON_IS_PRESSED m) 0); [now left |].
  destruct (Z.eq_dec (lds CURRENT_BUTTON_PRESSED m) UP); [now right; left |].
  destruct (Z.eq_dec (lds CURRENT_BUTTON_PRESSED m) DOWN); [now right; right; left |].
  destruct (Z.eq_dec (lds CURRENT_BUTTON_PRESSED m) RIGHT);
    [now right; right; right; left |].
  destruct (Z.eq_dec (lds CURRENT_BUTTON_PRESSED m) LEFT);
    [now right; right; right; right; left |].
  now right; right; right; right; right.
Qed.

(** ** Writing one column *)

Ltac labels :=
  unfold Cursor, LineBuffer, PerColumnIndex, BUTTON_IS_PRESSED,
    LAST_BUTTON_PRESSED, TOP_LINE_CONTENT, CURRENT_CHARSET_INDEX,
    CURRENT_CHAR_INDEX, CURRENT_BUTTON_PRESSED in *.

Lemma write_column m c i ch :
  0 <= c <= 15 ->
  let m' := sts (TOP_LINE_CONTENT + c) ch (sts (CURRENT_CHARSET_INDEX + c) i m) in
  LineBuffer m' c = ch /\ PerColumnIndex m' c = i /\ same_but_column c m m'.
Proof.
  intros Hc m'. subst m'. unfold same_but_column. labels. unfold lds, sts.
  repeat split.
  - now rewrite Z.eqb_refl.
  - rewrite Z.eqb_refl. destruct (Z.eqb_spec (DSEG + 18 + c) (DSEG + 2 + c)); [lia | reflexivity].
  - intros a H1 H2.
    destruct (Z.eqb_spec a (DSEG + 2 + c)); [contradiction |].
    destruct (Z.eqb_spec a (DSEG + 18 + c)); [contradiction | reflexivity].
Qed.

Lemma write_cell m c ch :
  0 <= c <= 15 ->
  let m' := sts (TOP_LINE_CONTENT + c) ch m in
  LineBuffer m' c = ch /\ PerColumnIndex m' c = PerColumnIndex m c
  /\ same_but_column c m m'.
Proof.
  intros Hc m'. subst m'. unfold same_but_column. labels. unfold lds, sts.
  repeat split.
  - now rewrite Z.eqb_refl.
  - destruct (Z.eqb_spec (DSEG + 18 + c) (DSEG + 2 + c)); [lia | reflexivity].
  - intros a H1 H2.
    destruct (Z.eqb_spec a (DSEG + 2 + c)); [contradiction | reflexivity].
Qed.

Lemma same_but_column_refl c m : same_but_column c m m.
Proof. intros a _ _. reflexivity. Qed.

(** What a write to column [c] leaves alone. *)
Lemma same_but_column_frame c m m' :
  0 <= c <= 15 -> same_but_column c m m' ->
  Cursor m' = Cursor m
  /\ lds BUTTON_IS_PRESSED m' = lds BUTTON_IS_PRESSED m
  /\ lds CURRENT_BUTTON_PRESSED m' = lds CURRENT_BUTTON_PRESSED m
  /\ lds LAST_BUTTON_PRESSED m' = lds LAST_BUTTON_PRESSED m
  /\ forall c', 0 <= c' <= 15 -> c' <> c ->
       LineBuffer m' c' = LineBuffer m c'
       /\ PerColumnIndex m' c' = PerColumnIndex m c'.
Proof.
  intros Hc H. unfold same_but_column in H. labels. unfold lds.
  repeat split; intros; apply H; lia.
Qed.

(** ** The invariant of the composition state *)

Lemma column_ok_blank m c :
  column_ok m c -> LineBuffer m c = SPACE -> PerColumnIndex m c = 0.
Proof.
  intros [[_ H] | [Hi Hl]] Hs; [assumption |].
  destruct (Z.eq_dec (PerColumnIndex m c) 37) as [E | E].
  - rewrite E, charset_terminator in Hl. rewrite Hl in Hs. discriminate.
  - destruct (charset_letters (PerColumnIndex m c)) as [_ Hn]; [lia | congruence].
Qed.

Lemma column_ok_set m c :
  column_ok m c -> LineBuffer m c <> SPACE ->
  0 <= PerColumnIndex m c <= 37
  /\ LineBuffer m c = lpm_charset (PerColumnIndex m c)
  /\ (LineBuffer m c = 0 <-> PerColumnIndex m c = 37).
Proof.
  intros [[H _] | [Hi Hl]] Hs; [contradiction |].
  repeat split; try lia; try assumption.
  - intros Hz. destruct (Z.eq_dec (PerColumnIndex m c) 37); [assumption |].
    destruct (charset_letters (PerColumnIndex m c)) as [Hn _]; [lia | congruence].
  - intros E. now rewrite Hl, E.
Qed.

Lemma column_ok_same m m' c :
  LineBuffer m' c = LineBuffer m c -> PerColumnIndex m' c = PerColumnIndex m c ->
  column_ok m c -> column_ok m' c.
Proof. unfold column_ok. intros -> ->. trivial. Qed.

Lemma composition_ok_frame m m' :
  (forall a, TOP_LINE_CONTENT <= a <= CURRENT_CHAR_INDEX -> m' a = m a) ->
  composition_ok m -> composition_ok m'.
Proof.
  intros H [Hc Hcol]. split.
  - unfold Cursor, lds in *. rewrite H; [assumption |]. labels. lia.
  - intros c Hr. apply (column_ok_same m); [| | now apply Hcol].
    + unfold LineBuffer, lds. apply H. labels. lia.
    + unfold PerColumnIndex, lds. apply H. labels. lia.
Qed.

(** One column rewritten, the others and the cursor kept. *)
Lemma composition_ok_column m m' c :
  0 <= c <= 15 -> same_but_column c m m' -> column_ok m' c ->
  composition_ok m -> composition_ok m'.
Proof.
  intros Hc Hs Hnew [Hcur Hcol].
  destruct (same_but_column_frame c m m' Hc Hs) as (Ecur & _ & _ & _ & Hoth).
  split; [now rewrite Ecur |].
  intros c' Hr. destruct (Z.eq_dec c' c) as [-> | Hne]; [assumption |].
  destruct (Hoth c' Hr Hne) as [E1 E2].
  now apply (column_ok_same m); [| | apply Hcol].
Qed.

Lemma initialize_data_space_ok m0 : composition_ok (initialize_data_space m0).
Proof.
  split.
  - unfold Cursor, lds. rewrite initialize_data_space_spec.
    rewrite Z.eqb_refl. lia.
  - intros c Hc. left. unfold LineBuffer, PerColumnIndex, lds.
    rewrite !initialize_data_space_spec. labels.
    destruct (Z.eqb_spec (DSEG + 2 + c) (DSEG + 34)); [lia |].
    destruct (Z.eqb_spec (DSEG + 18 + c) (DSEG + 34)); [lia |].
    destruct (Z.leb_spec (DSEG + 18) (DSEG + 2 + c)); [lia |].
    destruct (Z.leb_spec (DSEG + 2) (DSEG + 2 + c)); [| lia].
    destruct (Z.ltb_spec (DSEG + 2 + c) (DSEG + 2 + 16)); [| lia].
    destruct (Z.leb_spec (DSEG + 18) (DSEG + 18 + c)); [| lia].
    destruct (Z.ltb_spec (DSEG + 18 + c) (DSEG + 18 + 16)); [| lia].
    cbn. split; reflexivity.
Qed.

Lemma timer1_ok adcl adch m :
  composition_ok m -> composition_ok (timer1 adcl adch m).
Proof.
  apply composition_ok_frame. intros a Ha.
  apply (timer1_frame adcl adch m a); labels; lia.
Qed.

Lemma timer4_ok m : composition_ok m -> composition_ok (timer4 m).
Proof.
  intros Hok. pose proof Hok as [Hcur Hcol].
  assert (Hb : is_byte (Cursor m)) by (unfold is_byte; lia).
  pose proof (Hcol _ Hcur) as Hc.
  destruct (timer4_cases m) as [H | [H | [H | [H | [H | (Hu & Hd & Hr & Hl)]]]]].
  - now rewrite timer4_not_pressed.
  - rewrite (timer4_up m H Hb). cbv zeta.
    destruct (Z.eqb_spec (LineBuffer m (Cursor m)) 0) as [Ez | Ez]; [assumption |].
    match goal with |- composition_ok (sts _ ?ch (sts _ ?i m)) =>
      destruct (write_column m (Cursor m) i ch Hcur) as (E1 & E2 & Hs) end.
    apply (composition_ok_column m _ (Cursor m) Hcur Hs); [| assumption].
    right. rewrite E1, E2. split; [| reflexivity].
    destruct (Z.eqb_spec (LineBuffer m (Cursor m)) SPACE) as [Es | Es].
    + rewrite (column_ok_blank _ _ Hc Es). lia.
    + destruct (column_ok_set _ _ Hc Es) as (Hi & _ & Hz).
      assert (PerColumnIndex m (Cursor m) <> 37) by (intros E; apply Ez, Hz, E).
      unfold inc. rewrite Z.mod_small; lia.
  - rewrite (timer4_down m H Hb). cbv zeta.
    destruct (Z.eqb_spec (PerColumnIndex m (Cursor m)) 0) as [Ez | Ez].
    + destruct (write_cell m (Cursor m) SPACE Hcur) as (E1 & E2 & Hs).
      apply (composition_ok_column m _ (Cursor m) Hcur Hs); [| assumption].
      left. now rewrite E1, E2.
    + match goal with |- composition_ok (sts _ ?ch (sts _ ?i m)) =>
        destruct (write_column m (Cursor m) i ch Hcur) as (E1 & E2 & Hs) end.
      apply (composition_ok_column m _ (Cursor m) Hcur Hs); [| assumption].
      right. rewrite E1, E2. split; [| reflexivity].
      assert (Hns : LineBuffer m (Cursor m) <> SPACE)
        by (intros Es; apply Ez, (column_ok_blank _ _ Hc Es)).
      destruct (column_ok_set _ _ Hc Hns) as (Hi & _ & _).
      unfold dec. rewrite Z.mod_small; lia.
  - rewrite (timer4_right m H).
    destruct (Z.eqb_spec (Cursor m) 15) as [E | E]; [assumption |].
    split.
    + replace (Cursor (sts CURRENT_CHAR_INDEX (inc (Cursor m)) m))
        with (inc (Cursor m)) by (unfold Cursor; now rewrite lds_sts_same).
      unfold inc. rewrite Z.mod_small; lia.
    + intros c Hr. apply (column_ok_same m); [| | now apply Hcol];
        labels; apply lds_sts_other; lia.
  - rewrite (timer4_left m H).
    destruct (Z.eqb_spec (Cursor m) 0) as [E | E]; [assumption |].
    split.
    + replace (Cursor (sts CURRENT_CHAR_INDEX (dec (Cursor m)) m))
        with (dec (Cursor m)) by (unfold Cursor; now rewrite lds_sts_same).
      unfold dec. rewrite Z.mod_small; lia.
    + intros c Hr. apply (column_ok_same m); [| | now apply Hcol];
        labels; apply lds_sts_other; lia.
  - now rewrite timer4_no_button.
Qed.

(** A pass of the polling loop writes LAST_BUTTON_PRESSED at most. *)
Lemma polling_loop_frame tifr3 m m' out a :
  polling_loop tifr3 m = Some (m', out) ->
  a <> LAST_BUTTON_PRESSED -> lds a m' = lds a m.
Proof.
  unfold polling_loop, set_button_press, test_which_button.
  destruct (Z.testbit tifr3 OCF3A); [| discriminate].
  destruct (lds BUTTON_IS_PRESSED m =? 0).
  - intros [= <- _] _. reflexivity.
  - destruct (lds LAST_BUTTON_PRESSED m =? lds CURRENT_BUTTON_PRESSED m).
    + intros [= <- _] _. reflexivity.
    + intros [= <- _] Ha. now apply lds_sts_other.
Qed.

Lemma polling_loop_ok tifr3 m m' out :
  polling_loop tifr3 m = Some (m', out) ->
  composition_ok m -> composition_ok m'.
Proof.
  intros H. apply composition_ok_frame. intros a Ha.
  apply (polling_loop_frame tifr3 m m' out a H). labels. lia.
Qed.

Lemma reachable_ok m : reachable m -> composition_ok m.
Proof.
  induction 1 as [m0 | adcl adch m _ IH _ _ | m _ IH | tifr3 m m' out _ IH Hp].
  - apply initialize_data_space_ok.
  - now apply timer1_ok.
  - now apply timer4_ok.
  - now apply (polling_loop_ok tifr3 m m' out).
Qed.

(** ** The button sampler *)

Lemma timer1_pressing adcl adch m :
  is_byte adcl -> is_byte adch ->
  let m' := timer1 adcl adch m in
  match threshold_decode (adch * 256 + adcl) with
  | BtnRight => pressing RIGHT m'
  | BtnUp => pressing UP m'
  | BtnDown => pressing DOWN m'
  | BtnLeft => pressing LEFT m'
  | BtnNone =>
      lds BUTTON_IS_PRESSED m' = 0
      /\ lds CURRENT_BUTTON_PRESSED m' = lds CURRENT_BUTTON_PRESSED m
  end.
Proof.
  intros Hl Hh m'. subst m'. rewrite timer1_spec by assumption.
  unfold threshold_decode, pressing. cbv zeta.
  destruct (adch * 256 + adcl <? 50);
    [| destruct (adch * 256 + adcl <? 176);
       [| destruct (adch * 256 + adcl <? 352);
          [| destruct (adch * 256 + adcl <? 555)]]];
    rewrite ?lds_sts_same;
    rewrite ?(lds_sts_other BUTTON_IS_PRESSED CURRENT_BUTTON_PRESSED) by (labels; lia);
    rewrite ?(lds_sts_other CURRENT_BUTTON_PRESSED BUTTON_IS_PRESSED) by (labels; lia);
    rewrite ?lds_sts_same; split; try reflexivity; discriminate.
Qed.

(** C3.  For every sample ADCH:ADCL the identity the sampler publishes is
    the one of the first threshold, in the order Right (0x032), Up (0x0b0),
    Down (0x160), Left (0x22b), that the sample is strictly below, and no
    button when it is below none of them. *)
Theorem button_decoder_thresholds adcl adch m :
  is_byte adcl -> is_byte adch ->
  decoded (timer1 adcl adch m) = threshold_decode (adch * 256 + adcl).
Proof.
  intros Hl Hh. pose proof (timer1_pressing adcl adch m Hl Hh) as H.
  cbv zeta in H. unfold decoded, isPressed, currentButton.
  destruct (threshold_decode (adch * 256 + adcl)); unfold pressing in H;
    destruct H as [Hp Hb];
    try (destruct (Z.eqb_spec (lds BUTTON_IS_PRESSED (timer1 adcl adch m)) 0);
         [contradiction |]; rewrite Hb; reflexivity).
  now rewrite Hp.
Qed.

(** C2, as the program has it.  A run of the sampler sets the pressed flag
    exactly when the sample decodes to a button, and then the current
    button is that button; when the sample decodes to no button the flag is
    cleared and the current-button byte keeps the value it had. *)
Theorem sampler_publishes adcl adch m :
  is_byte adcl -> is_byte adch ->
  let m' := timer1 adcl adch m in
  let b := threshold_decode (adch * 256 + adcl) in
  (b <> BtnNone -> isPressed m' = true /\ currentButton m' = b)
  /\ (b = BtnNone ->
      isPressed m' = false
      /\ lds CURRENT_BUTTON_PRESSED m' = lds CURRENT_BUTTON_PRESSED m)
  /\ (isPressed m' = true -> currentButton m' <> BtnNone).
Proof.
  intros Hl Hh m' b. subst m' b.
  pose proof (timer1_pressing adcl adch m Hl Hh) as H. cbv zeta in H.
  unfold isPressed, currentButton.
  destruct (threshold_decode (adch * 256 + adcl)); unfold pressing in H;
    destruct H as [Hp Hb]; rewrite ?Hp;
    try (destruct (Z.eqb_spec (lds BUTTON_IS_PRESSED (timer1 adcl adch m)) 0);
         [contradiction |]; rewrite Hb);
    repeat split; intros; try reflexivity; try congruence; try discriminate.
Qed.

(** ** The display refresh loop *)

Lemma serviced_nonzero tifr3 : Z.testbit tifr3 OCF3A = true -> tifr3 <> 0.
Proof. intros H ->. now rewrite Z.testbit_0_l in H. Qed.

Lemma test_which_button_mem m :
  fst (test_which_button m) = m
  \/ fst (test_which_button m)
     = sts LAST_BUTTON_PRESSED (lds CURRENT_BUTTON_PRESSED m) m.
Proof.
  unfold test_which_button.
  destruct (lds LAST_BUTTON_PRESSED m =? lds CURRENT_BUTTON_PRESSED m);
    [now left | now right].
Qed.

Lemma set_counter_frame m m' :
  is_byte (Cursor m) ->
  (forall a, a <> LAST_BUTTON_PRESSED -> lds a m' = lds a m) ->
  set_counter m' = set_counter m.
Proof.
  intros Hb H. unfold set_counter.
  assert (Ec : lds CURRENT_CHAR_INDEX m' = lds CURRENT_CHAR_INDEX m)
    by (apply H; labels; lia).
  rewrite Ec. fold (Cursor m). rewrite top_line_pointer by assumption.
  assert (El : lds (TOP_LINE_CONTENT + Cursor m) m'
               = lds (TOP_LINE_CONTENT + Cursor m) m)
    by (apply H; unfold is_byte in Hb; labels; lia).
  now rewrite El.
Qed.

(** C10.  A serviced pass of the polling loop first moves to row 1,
    column 15 and writes '*' when the pressed flag is set and '-' when it
    is clear, whatever the button bytes hold; a pass that finds the
    period flag clear jumps back without any write. *)
Theorem status_marker_first tifr3 m :
  (Z.testbit tifr3 OCF3A = true ->
   exists m' rest,
     polling_loop tifr3 m
     = Some (m', lcd_gotoxy 1 15
                 :: lcd_putchar (if isPressed m then ASTERISK else DASH)
                 :: rest))
  /\ (Z.testbit tifr3 OCF3A = false -> polling_loop tifr3 m = None).
Proof.
  unfold polling_loop, set_button_press, isPressed. split; intros ->; [| reflexivity].
  destruct (lds BUTTON_IS_PRESSED m =? 0); cbn [negb].
  - eexists. eexists. cbn [app]. reflexivity.
  - destruct (test_which_button m) as [m1 out1]. eexists. eexists.
    cbn [app]. reflexivity.
Qed.

(** C6, as the program has it.  A serviced pass writes the status marker,
    runs the indicator only when the pressed flag is set, and then always
    runs set_counter, which writes the byte of the selected column at
    row 0, column Cursor unless that byte is the terminator 0: a blank
    cell is written as a space. *)
Theorem refresh_tick tifr3 m :
  Z.testbit tifr3 OCF3A = true -> is_byte (Cursor m) ->
  let c := Cursor m in
  let marker :=
    [lcd_gotoxy 1 15; lcd_putchar (if isPressed m then ASTERISK else DASH)] in
  let indicator := if isPressed m then test_which_button m else (m, []) in
  let render :=
    if LineBuffer m c =? 0 then []
    else [lcd_gotoxy 0 c; lcd_putchar (LineBuffer m c)] in
  polling_loop tifr3 m = Some (fst indicator, marker ++ snd indicator ++ render).
Proof.
  intros Hs Hb c marker indicator render. subst c marker indicator render.
  pose proof (serviced_nonzero tifr3 Hs) as Hnz.
  unfold polling_loop, set_button_press, isPressed. rewrite Hs.
  assert (Hr : forall m', (forall a, a <> LAST_BUTTON_PRESSED -> lds a m' = lds a m) ->
               set_counter m'
               = if LineBuffer m (Cursor m) =? 0 then []
                 else [lcd_gotoxy 0 (Cursor m); lcd_putchar (LineBuffer m (Cursor m))]).
  { intros m' H. rewrite (set_counter_frame m m' Hb H). unfold set_counter.
    fold (Cursor m). now rewrite top_line_pointer by assumption. }
  destruct (lds BUTTON_IS_PRESSED m =? 0); cbn [negb fst snd].
  - destruct (Z.eqb_spec tifr3 0); [contradiction |].
    rewrite Hr by reflexivity. now rewrite <- app_assoc.
  - destruct (test_which_button_mem m) as [E | E];
      destruct (test_which_button m) as [m1 out1]; cbn [fst snd] in *;
      destruct (Z.eqb_spec tifr3 0); try contradiction;
      subst m1; rewrite Hr; try reflexivity.
    intros a Ha. now apply lds_sts_other.
Qed.

(** ** The display indicator *)

Lemma test_which_button_same m :
  lds LAST_BUTTON_PRESSED m = lds CURRENT_BUTTON_PRESSED m ->
  test_which_button m = (m, []).
Proof. intros E. unfold test_which_button. now rewrite E, Z.eqb_refl. Qed.

Lemma test_which_button_last m :
  lds LAST_BUTTON_PRESSED (fst (test_which_button m))
  = lds CURRENT_BUTTON_PRESSED m.
Proof.
  unfold test_which_button.
  destruct (Z.eqb_spec (lds LAST_BUTTON_PRESSED m) (lds CURRENT_BUTTON_PRESSED m));
    cbn [fst]; [assumption | apply lds_sts_same].
Qed.




(** ** The composition updater *)

Lemma timer4_down_column m :
  pressing DOWN m -> 0 <= Cursor m <= 15 ->
  is_byte (PerColumnIndex m (Cursor m)) ->
  let c := Cursor m in
  same_but_column c m (timer4 m)
  /\ (PerColumnIndex m c = 0 ->
      LineBuffer (timer4 m) c = SPACE /\ PerColumnIndex (timer4 m) c = 0)
  /\ (PerColumnIndex m c <> 0 ->
      PerColumnIndex (timer4 m) c = PerColumnIndex m c - 1
      /\ LineBuffer (timer4 m) c = lpm_charset (PerColumnIndex (timer4 m) c)).
Proof.
  intros H Hcur Hi c. subst c.
  assert (Hb : is_byte (Cursor m)) by (unfold is_byte; lia).
  rewrite (timer4_down m H Hb). cbv zeta.
  destruct (Z.eqb_spec (PerColumnIndex m (Cursor m)) 0) as [Ez | Ez].
  - destruct (write_cell m (Cursor m) SPACE Hcur) as (E1 & E2 & Hs).
    repeat split; try assumption; try contradiction. congruence.
  - match goal with |- context [sts _ ?ch (sts _ ?i m)] =>
      destruct (write_column m (Cursor m) i ch Hcur) as (E1 & E2 & Hs) end.
    repeat split; try assumption; try contradiction.
    + rewrite E2. unfold dec, is_byte in *. rewrite Z.mod_small; lia.
    + now rewrite E1, E2.
Qed.

Lemma timer4_cursor_range m :
  0 <= Cursor m <= 15 -> 0 <= Cursor (timer4 m) <= 15.
Proof.
  intros Hcur. assert (Hb : is_byte (Cursor m)) by (unfold is_byte; lia).
  destruct (timer4_cases m) as [H | [H | [H | [H | [H | (Hu & Hd & Hr & Hl)]]]]].
  - now rewrite timer4_not_pressed.
  - rewrite (timer4_up m H Hb). cbv zeta.
    destruct (LineBuffer m (Cursor m) =? 0); [assumption |].
    match goal with |- context [sts _ ?ch (sts _ ?i m)] =>
      destruct (write_column m (Cursor m) i ch Hcur) as (_ & _ & Hs) end.
    destruct (same_but_column_frame _ _ _ Hcur Hs) as (E & _). now rewrite E.
  - rewrite (timer4_down m H Hb). cbv zeta.
    destruct (PerColumnIndex m (Cursor m) =? 0).
    + destruct (write_cell m (Cursor m) SPACE Hcur) as (_ & _ & Hs).
      destruct (same_but_column_frame _ _ _ Hcur Hs) as (E & _). now rewrite E.
    + match goal with |- context [sts _ ?ch (sts _ ?i m)] =>
        destruct (write_column m (Cursor m) i ch Hcur) as (_ & _ & Hs) end.
      destruct (same_but_column_frame _ _ _ Hcur Hs) as (E & _). now rewrite E.
  - rewrite (timer4_right m H).
    destruct (Z.eqb_spec (Cursor m) 15); [assumption |].
    replace (Cursor (sts CURRENT_CHAR_INDEX (inc (Cursor m)) m))
      with (inc (Cursor m)) by (unfold Cursor; now rewrite lds_sts_same).
    unfold inc. rewrite Z.mod_small; lia.
  - rewrite (timer4_left m H).
    destruct (Z.eqb_spec (Cursor m) 0); [assumption |].
    replace (Cursor (sts CURRENT_CHAR_INDEX (dec (Cursor m)) m))
      with (dec (Cursor m)) by (unfold Cursor; now rewrite lds_sts_same).
    unfold dec. rewrite Z.mod_small; lia.
  - now rewrite timer4_no_button.
Qed.

(** C5.  With the cursor in 0..15, a Right tick at column 15 and a Left
    tick at column 0 leave the data space as it is, any other Right tick
    stores Cursor + 1 and any other Left tick Cursor - 1, and after a tick
    with any button the cursor is in 0..15 again; in every state reachable
    from startup the cursor is in 0..15. *)
Theorem cursor_clamps :
  (forall m, 0 <= Cursor m <= 15 ->
     (pressing RIGHT m -> Cursor m = 15 -> timer4 m = m)
     /\ (pressing LEFT m -> Cursor m = 0 -> timer4 m = m)
     /\ (pressing RIGHT m -> Cursor m <> 15 ->
         timer4 m = sts CURRENT_CHAR_INDEX (Cursor m + 1) m)
     /\ (pressing LEFT m -> Cursor m <> 0 ->
         timer4 m = sts CURRENT_CHAR_INDEX (Cursor m - 1) m)
     /\ 0 <= Cursor (timer4 m) <= 15)
  /\ (forall m, reachable m -> 0 <= Cursor m <= 15).
Proof.
  split.
  - intros m Hcur. repeat split.
    + intros H E. rewrite (timer4_right m H), E. reflexivity.
    + intros H E. rewrite (timer4_left m H), E. reflexivity.
    + intros H E. rewrite (timer4_right m H).
      destruct (Z.eqb_spec (Cursor m) 15); [contradiction |].
      unfold inc. rewrite Z.mod_small by lia. reflexivity.
    + intros H E. rewrite (timer4_left m H).
      destruct (Z.eqb_spec (Cursor m) 0); [contradiction |].
      unfold dec. rewrite Z.mod_small by lia. reflexivity.
    + now apply timer4_cursor_range.
    + now apply timer4_cursor_range.
  - intros m H. now apply reachable_ok.
Qed.

Lemma timer4_up_ok m :
  composition_ok m -> pressing UP m ->
  let c := Cursor m in
  same_but_column c m (timer4 m)
  /\ (LineBuffer m c = SPACE ->
      timer4 m
      = sts (TOP_LINE_CONTENT + c) (lpm_charset (PerColumnIndex m c))
          (sts (CURRENT_CHARSET_INDEX + c) (PerColumnIndex m c) m)
      /\ PerColumnIndex (timer4 m) c = 0
      /\ LineBuffer (timer4 m) c = lpm_charset 0)
  /\ (LineBuffer m c <> SPACE -> PerColumnIndex m c = 37 ->
      LineBuffer m c = 0 /\ timer4 m = m)
  /\ (LineBuffer m c <> SPACE -> PerColumnIndex m c <> 37 ->
      PerColumnIndex (timer4 m) c = PerColumnIndex m c + 1
      /\ LineBuffer (timer4 m) c = lpm_charset (PerColumnIndex m c + 1)).
Proof.
  intros [Hcur Hcol] H c. subst c.
  assert (Hb : is_byte (Cursor m)) by (unfold is_byte; lia).
  pose proof (Hcol _ Hcur) as Hc.
  rewrite (timer4_up m H Hb). cbv zeta.
  destruct (Z.eqb_spec (LineBuffer m (Cursor m)) 0) as [Ez | Ez].
  - assert (Hns : LineBuffer m (Cursor m) <> SPACE) by (rewrite Ez; discriminate).
    destruct (column_ok_set _ _ Hc Hns) as (_ & _ & Hz).
    split; [apply same_but_column_refl |].
    split; [intros Es; contradiction |].
    split; [intros _ _; now split |].
    intros _ Hn. elim Hn. now apply Hz.
  - match goal with |- context [sts _ ?ch (sts _ ?i m)] =>
      destruct (write_column m (Cursor m) i ch Hcur) as (E1 & E2 & Hs) end.
    split; [assumption |].
    destruct (Z.eqb_spec (LineBuffer m (Cursor m)) SPACE) as [Es | Es].
    + pose proof (column_ok_blank _ _ Hc Es) as E0.
      split; [intros _ | split; intros Hn; contradiction].
      split; [reflexivity |]. split; [now rewrite E2 | now rewrite E1, E0].
    + destruct (column_ok_set _ _ Hc Es) as (Hi & _ & Hz).
      split; [intros Hn; contradiction |].
      split; [intros _ E; elim Ez; now apply Hz |].
      intros _ Hn.
      assert (Einc : inc (PerColumnIndex m (Cursor m)) = PerColumnIndex m (Cursor m) + 1)
        by (unfold inc; rewrite Z.mod_small; lia).
      rewrite Einc in *. now split.
Qed.

Lemma timer1_composition adcl adch m :
  Cursor (timer1 adcl adch m) = Cursor m
  /\ forall c, 0 <= c <= 15 ->
       LineBuffer (timer1 adcl adch m) c = LineBuffer m c
       /\ PerColumnIndex (timer1 adcl adch m) c = PerColumnIndex m c.
Proof.
  repeat split; intros; apply timer1_frame; labels; lia.
Qed.

(** One sample in the Up range followed by one run of the updater. *)
Lemma tick_up adcl adch m :
  is_byte adcl -> is_byte adch ->
  threshold_decode (adch * 256 + adcl) = BtnUp ->
  composition_ok m ->
  let c := Cursor m in
  let m' := tick adcl adch m in
  lds BUTTON_IS_PRESSED m' = 1 /\ lds CURRENT_BUTTON_PRESSED m' = UP
  /\ Cursor m' = c
  /\ (forall c', 0 <= c' <= 15 -> c' <> c ->
        LineBuffer m' c' = LineBuffer m c'
        /\ PerColumnIndex m' c' = PerColumnIndex m c')
  /\ (LineBuffer m c = SPACE ->
      PerColumnIndex m' c = 0 /\ LineBuffer m' c = lpm_charset 0)
  /\ (LineBuffer m c <> SPACE -> PerColumnIndex m c = 37 ->
      PerColumnIndex m' c = 37 /\ LineBuffer m' c = 0 /\ m' = timer1 adcl adch m)
  /\ (LineBuffer m c <> SPACE -> PerColumnIndex m c <> 37 ->
      PerColumnIndex m' c = PerColumnIndex m c + 1
      /\ LineBuffer m' c = lpm_charset (PerColumnIndex m c + 1)).
Proof.
  intros Hl Hh Hd Hok c m'. subst c m'. unfold tick.
  pose proof (timer1_pressing adcl adch m Hl Hh) as Hp. cbv zeta in Hp.
  rewrite Hd in Hp.
  assert (H1 : lds BUTTON_IS_PRESSED (timer1 adcl adch m) = 1).
  { rewrite timer1_spec by assumption. unfold threshold_decode in Hd. cbv zeta.
    destruct (adch * 256 + adcl <? 50); [discriminate |].
    destruct (adch * 256 + adcl <? 176);
      [rewrite lds_sts_other by (labels; lia); apply lds_sts_same |].
    destruct (adch * 256 + adcl <? 352); [discriminate |].
    destruct (adch * 256 + adcl <? 555); discriminate. }
  destruct (timer1_composition adcl adch m) as [Ec Ecol].
  pose proof Hok as [Hcur _].
  destruct (Ecol _ Hcur) as [El Ei].
  destruct (timer4_up_ok _ (timer1_ok adcl adch m Hok) Hp) as (Hs & Hblank & Htop & Hinc).
  rewrite Ec, El, Ei in *.
  destruct (same_but_column_frame _ _ _ Hcur Hs) as (Fc & Fp & Fb & _ & Fo).
  rewrite Fc, Fp, Fb, Ec, H1. destruct Hp as [_ Hp]. rewrite Hp.
  split; [reflexivity |]. split; [reflexivity |]. split; [reflexivity |].
  split; [| split; [| split]].
  - intros c' Hr Hne. destruct (Fo c' Hr Hne) as [-> ->]. now apply Ecol.
  - intros Es. now destruct (Hblank Es) as (_ & E0 & E1).
  - intros Es E. destruct (Htop Es E) as [E0 ->]. now rewrite Ei, El.
  - intros Es E. now apply Hinc.
Qed.

(** One sample in the Down range followed by one run of the updater. *)
Lemma tick_down adcl adch m :
  is_byte adcl -> is_byte adch ->
  threshold_decode (adch * 256 + adcl) = BtnDown ->
  composition_ok m ->
  let c := Cursor m in
  let m' := tick adcl adch m in
  Cursor m' = c
  /\ (forall c', 0 <= c' <= 15 -> c' <> c ->
        LineBuffer m' c' = LineBuffer m c'
        /\ PerColumnIndex m' c' = PerColumnIndex m c')
  /\ (PerColumnIndex m c = 0 ->
      LineBuffer m' c = SPACE /\ PerColumnIndex m' c = 0)
  /\ (PerColumnIndex m c <> 0 ->
      PerColumnIndex m' c = PerColumnIndex m c - 1
      /\ LineBuffer m' c = lpm_charset (PerColumnIndex m c - 1)).
Proof.
  intros Hl Hh Hd Hok c m'. subst c m'. unfold tick.
  pose proof (timer1_pressing adcl adch m Hl Hh) as Hp. cbv zeta in Hp.
  rewrite Hd in Hp.
  destruct (timer1_composition adcl adch m) as [Ec Ecol].
  pose proof Hok as [Hcur Hcol].
  destruct (Ecol _ Hcur) as [El Ei].
  assert (Hi : is_byte (PerColumnIndex m (Cursor m))).
  { destruct (Hcol _ Hcur) as [[_ E] | [Hr _]]; unfold is_byte; lia. }
  destruct (timer4_down_column (timer1 adcl adch m) Hp) as (Hs & Hz & Hnz).
  { now rewrite Ec. }
  { now rewrite Ec, Ei. }
  rewrite Ec, ?Ei in *.
  destruct (same_but_column_frame _ _ _ Hcur Hs) as (Fc & _ & _ & _ & Fo).
  rewrite Fc, Ec.
  split; [reflexivity |]. split; [| split].
  - intros c' Hr Hne. destruct (Fo c' Hr Hne) as [-> ->]. now apply Ecol.
  - assumption.
  - intros Hn. destruct (Hnz Hn) as [E1 E2]. split; [assumption |].
    now rewrite E2, E1.
Qed.

Lemma tick_ok adcl adch m : composition_ok m -> composition_ok (tick adcl adch m).
Proof. intros H. unfold tick. now apply timer4_ok, timer1_ok. Qed.

Lemma initialize_data_space_blank m0 :
  Cursor (initialize_data_space m0) = 0
  /\ forall c, 0 <= c <= 15 ->
       LineBuffer (initialize_data_space m0) c = SPACE
       /\ PerColumnIndex (initialize_data_space m0) c = 0.
Proof.
  split.
  - unfold Cursor, lds. rewrite initialize_data_space_spec.
    now rewrite Z.eqb_refl.
  - intros c Hc. pose proof (initialize_data_space_ok m0) as [_ Hcol].
    unfold LineBuffer, PerColumnIndex, lds.
    rewrite !initialize_data_space_spec. labels.
    destruct (Z.eqb_spec (DSEG + 2 + c) (DSEG + 34)); [lia |].
    destruct (Z.eqb_spec (DSEG + 18 + c) (DSEG + 34)); [lia |].
    destruct (Z.leb_spec (DSEG + 18) (DSEG + 2 + c)); [lia |].
    destruct (Z.leb_spec (DSEG + 2) (DSEG + 2 + c)); [| lia].
    destruct (Z.ltb_spec (DSEG + 2 + c) (DSEG + 2 + 16)); [| lia].
    destruct (Z.leb_spec (DSEG + 18) (DSEG + 18 + c)); [| lia].
    destruct (Z.ltb_spec (DSEG + 18 + c) (DSEG + 18 + 16)); [| lia].
    cbn. split; reflexivity.
Qed.

(** Up held from startup: after [n + 1] ticks column 0 is at index [n]. *)
Lemma up_ticks_from_start m0 n :
  (n <= 37)%nat ->
  let m := Nat.iter (S n) (tick 100 0) (initialize_data_space m0) in
  composition_ok m
  /\ lds BUTTON_IS_PRESSED m = 1 /\ lds CURRENT_BUTTON_PRESSED m = UP
  /\ Cursor m = 0
  /\ PerColumnIndex m 0 = Z.of_nat n
  /\ LineBuffer m 0 = lpm_charset (Z.of_nat n).
Proof.
  assert (B100 : is_byte 100) by (unfold is_byte; lia).
  assert (B0 : is_byte 0) by (unfold is_byte; lia).
  induction n as [| n IH]; intros Hn m; subst m.
  - change (Nat.iter 1 (tick 100 0) (initialize_data_space m0))
      with (tick 100 0 (initialize_data_space m0)).
    pose proof (initialize_data_space_ok m0) as Hok.
    destruct (initialize_data_space_blank m0) as [Ec Ecol].
    destruct (Ecol 0 ltac:(lia)) as [El Ei].
    destruct (tick_up 100 0 _ B100 B0 eq_refl Hok) as (Hp & Hb & Hc & _ & Hblank & _).
    rewrite Ec in *. destruct (Hblank El) as [E1 E2].
    split; [now apply tick_ok |]. repeat split; assumption.
  - change (Nat.iter (S (S n)) (tick 100 0) (initialize_data_space m0))
      with (tick 100 0 (Nat.iter (S n) (tick 100 0) (initialize_data_space m0))).
    destruct (IH ltac:(lia)) as (Hok & _ & _ & Ec & Ei & El).
    destruct (tick_up 100 0 _ B100 B0 eq_refl Hok) as (Hp & Hb & Hc & _ & _ & _ & Hinc).
    rewrite Ec in *.
    destruct (charset_letters (Z.of_nat n) ltac:(lia)) as [_ Hns].
    destruct Hinc as [E1 E2]; [congruence | lia |].
    split; [now apply tick_ok |].
    rewrite Nat2Z.inj_succ. unfold Z.succ. rewrite <- Ei.
    repeat split; assumption.
Qed.

(** C1, as the program has it.  In a reachable state, an Up tick at column
    c = Cursor writes column c only.  On a blank cell it keeps the stored
    index, which is 0, and stores the first table byte.  On a cell that is
    not blank it does nothing when the cell holds the terminator 0, which
    is the case exactly at index 37, one past '!'; at any other index it
    increments the index and stores the table byte at the new index, so
    from '!' at index 36 it moves to index 37 and stores the terminator.
    Holding Up from startup: the 37th tick gives index 36 and '!', the
    38th index 37 and the terminator, and the 39th changes nothing. *)
Theorem up_tick :
  (forall m, reachable m -> pressing UP m ->
     let c := Cursor m in
     same_but_column c m (timer4 m)
     /\ (LineBuffer m c = SPACE ->
         PerColumnIndex (timer4 m) c = 0
         /\ LineBuffer (timer4 m) c = nth 0 AVAILABLE_CHARSET 0)
     /\ (LineBuffer m c <> SPACE -> PerColumnIndex m c = 37 ->
         LineBuffer m c = 0 /\ timer4 m = m)
     /\ (LineBuffer m c <> SPACE -> PerColumnIndex m c <> 37 ->
         0 <= PerColumnIndex m c <= 36
         /\ PerColumnIndex (timer4 m) c = PerColumnIndex m c + 1
         /\ LineBuffer (timer4 m) c
            = nth (Z.to_nat (PerColumnIndex m c + 1)) AVAILABLE_CHARSET 0))
  /\ (forall m0,
        let m37 := Nat.iter 37 (tick 100 0) (initialize_data_space m0) in
        let m38 := tick 100 0 m37 in
        let m39 := tick 100 0 m38 in
        PerColumnIndex m37 0 = 36 /\ LineBuffer m37 0 = 33
        /\ PerColumnIndex m38 0 = 37 /\ LineBuffer m38 0 = 0
        /\ forall a, lds a m39 = lds a m38).
Proof.
  split.
  - intros m Hr Hp c. subst c. pose proof (reachable_ok m Hr) as Hok.
    destruct (timer4_up_ok m Hok Hp) as (Hs & Hblank & Htop & Hinc).
    split; [assumption |]. split; [| split].
    + intros Es. now destruct (Hblank Es) as (_ & E0 & E1).
    + assumption.
    + intros Es Hn. destruct (Hinc Es Hn) as [E1 E2].
      destruct Hok as [Hcur Hcol].
      destruct (column_ok_set _ _ (Hcol _ Hcur) Es) as (Hi & _ & _).
      split; [lia |]. split; [assumption |].
      rewrite E2. apply charset_in_table. lia.
  - intros m0 m37 m38 m39.
    destruct (up_ticks_from_start m0 36 ltac:(lia)) as (_ & _ & _ & _ & Ei37 & El37).
    destruct (up_ticks_from_start m0 37 ltac:(lia)) as (Hok & Hp & Hb & Ec & Ei38 & El38).
    fold m37 in Ei37, El37.
    change (Nat.iter 38 (tick 100 0) (initialize_data_space m0)) with m38 in *.
    split; [exact Ei37 |]. split; [exact El37 |].
    split; [exact Ei38 |]. split; [exact El38 |].
    assert (B100 : is_byte 100) by (unfold is_byte; lia).
    assert (B0 : is_byte 0) by (unfold is_byte; lia).
    destruct (tick_up 100 0 m38 B100 B0 eq_refl Hok) as (_ & _ & _ & _ & _ & Htop & _).
    rewrite Ec in Htop.
    destruct Htop as (_ & _ & E); [rewrite El38; discriminate | exact Ei38 |].
    intros a. subst m39. rewrite E, timer1_spec by assumption.
    change (lds a (sts CURRENT_BUTTON_PRESSED UP (sts BUTTON_IS_PRESSED 1 m38))
            = lds a m38).
    rewrite lds_sts. destruct (Z.eqb_spec a CURRENT_BUTTON_PRESSED) as [-> | _];
      [now rewrite Hb |].
    rewrite lds_sts. destruct (Z.eqb_spec a BUTTON_IS_PRESSED) as [-> | _];
      [now rewrite Hp | reflexivity].
Qed.

(** C4.  A Down tick at column c = Cursor: with the stored index 0 the
    cell becomes a space and the index stays 0; with any other index the
    index is decremented by one and the cell becomes the byte of
    AVAILABLE_CHARSET at the new index (for a stored index above 38,
    which no reachable state has, the byte of program memory that far
    past the start of the table).  Nothing but column c is written. *)
Theorem down_tick m :
  pressing DOWN m -> 0 <= Cursor m <= 15 ->
  is_byte (PerColumnIndex m (Cursor m)) ->
  let c := Cursor m in
  same_but_column c m (timer4 m)
  /\ (PerColumnIndex m c = 0 ->
      LineBuffer (timer4 m) c = SPACE /\ PerColumnIndex (timer4 m) c = 0)
  /\ (PerColumnIndex m c <> 0 ->
      PerColumnIndex (timer4 m) c = PerColumnIndex m c - 1
      /\ (PerColumnIndex m c <= 38 ->
          LineBuffer (timer4 m) c
          = nth (Z.to_nat (PerColumnIndex m c - 1)) AVAILABLE_CHARSET 0)
      /\ (38 < PerColumnIndex m c ->
          LineBuffer (timer4 m) c = flash_after (PerColumnIndex m c - 1))).
Proof.
  intros Hp Hc Hi c. subst c.
  destruct (timer4_down_column m Hp Hc Hi) as (Hs & Hz & Hnz).
  split; [assumption |]. split; [assumption |].
  intros Hn. destruct (Hnz Hn) as [Ei El]. unfold is_byte in Hi.
  split; [assumption |]. rewrite El, Ei. split; intros Hr.
  - apply charset_in_table. lia.
  - unfold lpm_charset.
    destruct (Z.leb_spec 0 (PerColumnIndex m (Cursor m) - 1));
      destruct (Z.ltb_spec (PerColumnIndex m (Cursor m) - 1) 38);
      cbn [andb]; try reflexivity; lia.
Qed.

(** C8.  In a reachable state whose selected cell is blank, an Up tick
    followed by a Down tick leaves the selected column at index 0 and
    blank, the cursor where it was and every column as it was. *)
Theorem up_then_down_from_blank ul uh dl dh m :
  reachable m ->
  is_byte ul -> is_byte uh -> is_byte dl -> is_byte dh ->
  threshold_decode (uh * 256 + ul) = BtnUp ->
  threshold_decode (dh * 256 + dl) = BtnDown ->
  let c := Cursor m in
  LineBuffer m c = SPACE ->
  let m' := tick dl dh (tick ul uh m) in
  PerColumnIndex m' c = 0 /\ LineBuffer m' c = SPACE /\ Cursor m' = c
  /\ forall c', 0 <= c' <= 15 ->
       LineBuffer m' c' = LineBuffer m c'
       /\ PerColumnIndex m' c' = PerColumnIndex m c'.
Proof.
  intros Hr Bul Buh Bdl Bdh Hu Hd c Es m'. subst c m'.
  pose proof (reachable_ok m Hr) as Hok. pose proof Hok as [Hcur Hcol].
  pose proof (column_ok_blank _ _ (Hcol _ Hcur) Es) as E0.
  destruct (tick_up ul uh m Bul Buh Hu Hok) as (_ & _ & Ec1 & Ho1 & Hblank & _).
  destruct (Hblank Es) as [Ei1 El1].
  pose proof (tick_ok ul uh m Hok) as Hok1.
  destruct (tick_down dl dh _ Bdl Bdh Hd Hok1) as (Ec2 & Ho2 & Hz & _).
  rewrite Ec1 in *. destruct (Hz Ei1) as [El2 Ei2].
  split; [assumption |]. split; [assumption |]. split; [assumption |].
  intros c' Hc'. destruct (Z.eq_dec c' (Cursor m)) as [-> | Hne].
  - now rewrite El2, Ei2, Es, E0.
  - destruct (Ho2 c' Hc' Hne) as [-> ->]. now apply Ho1.
Qed.

(** C9.  In every state reachable from startup a blank cell has the stored
    index 0; so the first Up on a blank cell, which stores back the index
    it loaded, selects the first byte of the table. *)
Theorem blank_column_has_index_zero m :
  reachable m ->
  (forall c, 0 <= c <= 15 -> LineBuffer m c = SPACE -> PerColumnIndex m c = 0)
  /\ (pressing UP m -> LineBuffer m (Cursor m) = SPACE ->
      let c := Cursor m in
      timer4 m
      = sts (TOP_LINE_CONTENT + c) (lpm_charset (PerColumnIndex m c))
          (sts (CURRENT_CHARSET_INDEX + c) (PerColumnIndex m c) m)
      /\ PerColumnIndex (timer4 m) c = 0
      /\ LineBuffer (timer4 m) c = nth 0 AVAILABLE_CHARSET 0).
Proof.
  intros Hr. pose proof (reachable_ok m Hr) as Hok. split.
  - intros c Hc Es. destruct Hok as [_ Hcol].
    now apply (column_ok_blank _ _ (Hcol _ Hc)).
  - intros Hp Es c. subst c.
    destruct (timer4_up_ok m Hok Hp) as (_ & Hblank & _).
    exact (Hblank Es).
Qed.

(** ** Further properties of the routines *)

(** X1.  compare_words returns 0 when the two 16-bit words are equal,
    0xFF (-1) when word 1 is below word 2 and 1 when it is above, as
    unsigned numbers. *)
Theorem compare_words_three_way r16 r17 r18 r19 :
  is_byte r16 -> is_byte r17 -> is_byte r18 -> is_byte r19 ->
  compare_words r16 r17 r18 r19
  = match r17 * 256 + r16 ?= r19 * 256 + r18 with
    | Eq => 0
    | Lt => 255
    | Gt => 1
    end.
Proof.
  unfold is_byte, compare_words, cp. intros H16 H17 H18 H19.
  destruct (Z.compare_spec (r17 * 256 + r16) (r19 * 256 + r18));
    destruct (Z.eqb_spec r17 r19); destruct (Z.eqb_spec r16 r18);
    destruct (Z.ltb_spec r16 r18); destruct (Z.ltb_spec r17 r19);
    try reflexivity; lia.
Qed.



(** X4.  In every state reachable from startup each stored index is in
    0..37, so a table read stays inside the 38 bytes of AVAILABLE_CHARSET,
    and each cell of the top line holds a space or the table byte at its
    stored index. *)
Theorem reachable_cells m c :
  reachable m -> 0 <= c <= 15 ->
  0 <= PerColumnIndex m c <= 37
  /\ lpm_charset (PerColumnIndex m c)
     = nth (Z.to_nat (PerColumnIndex m c)) AVAILABLE_CHARSET 0
  /\ (LineBuffer m c = SPACE
      \/ LineBuffer m c = nth (Z.to_nat (PerColumnIndex m c)) AVAILABLE_CHARSET 0)
  /\ In (LineBuffer m c) (SPACE :: AVAILABLE_CHARSET).
Proof.
  intros Hr Hc. destruct (reachable_ok m Hr) as [_ Hcol].
  pose proof (Hcol c Hc) as Hk.
  assert (Hi : 0 <= PerColumnIndex m c <= 37)
    by (destruct Hk as [[_ E] | [Hi _]]; lia).
  split; [assumption |]. split; [now apply charset_in_table |].
  destruct Hk as [[Es _] | [_ El]].
  - split; [now left |]. left. now rewrite Es.
  - rewrite charset_in_table in El by assumption.
    split; [now right |]. right. rewrite El. apply nth_In.
    change (length AVAILABLE_CHARSET) with 38%nat. lia.
Qed.

Lemma timer4_frame m a :
  0 <= Cursor m <= 15 ->
  a <> TOP_LINE_CONTENT + Cursor m ->
  a <> CURRENT_CHARSET_INDEX + Cursor m ->
  a <> CURRENT_CHAR_INDEX ->
  lds a (timer4 m) = lds a m.
Proof.
  intros Hcur H1 H2 H3.
  assert (Hb : is_byte (Cursor m)) by (unfold is_byte; lia).
  destruct (timer4_cases m) as [H | [H | [H | [H | [H | (Hu & Hd & Hr & Hl)]]]]].
  - now rewrite timer4_not_pressed.
  - rewrite (timer4_up m H Hb). cbv zeta.
    destruct (LineBuffer m (Cursor m) =? 0); [reflexivity |].
    now rewrite !lds_sts_other.
  - rewrite (timer4_down m H Hb). cbv zeta.
    destruct (PerColumnIndex m (Cursor m) =? 0); now rewrite !lds_sts_other.
  - rewrite (timer4_right m H).
    destruct (Cursor m =? 15); [reflexivity | now rewrite lds_sts_other].
  - rewrite (timer4_left m H).
    destruct (Cursor m =? 0); [reflexivity | now rewrite lds_sts_other].
  - now rewrite timer4_no_button.
Qed.



(** X7.  Of the 36 bytes the program reserves in the data segment, a run
    of the sampler, whatever the two ADC bytes are, writes none but
    BUTTON_IS_PRESSED and CURRENT_BUTTON_PRESSED; it leaves the flag 0 or
    1, and leaves the current button either as it was or as one of the
    four letters. *)
Theorem timer1_writes adcl adch m :
  (forall a, BUTTON_IS_PRESSED <= a <= CURRENT_BUTTON_PRESSED ->
     a <> BUTTON_IS_PRESSED -> a <> CURRENT_BUTTON_PRESSED ->
     lds a (timer1 adcl adch m) = lds a m)
  /\ (lds BUTTON_IS_PRESSED (timer1 adcl adch m) = 0
      \/ lds BUTTON_IS_PRESSED (timer1 adcl adch m) = 1)
  /\ In (lds CURRENT_BUTTON_PRESSED (timer1 adcl adch m))
       [lds CURRENT_BUTTON_PRESSED m; RIGHT; UP; DOWN; LEFT].
Proof.
  split; [intros a _; apply timer1_frame |].
  assert (Hne : BUTTON_IS_PRESSED <> CURRENT_BUTTON_PRESSED) by (labels; lia).
  unfold timer1.
  repeat match goal with |- context [if ?b then _ else _] => destruct b end;
    rewrite ?lds_sts_same;
    rewrite ?(lds_sts_other BUTTON_IS_PRESSED CURRENT_BUTTON_PRESSED) by assumption;
    rewrite ?(lds_sts_other CURRENT_BUTTON_PRESSED BUTTON_IS_PRESSED) by congruence;
    rewrite ?lds_sts_same; cbn [In]; split; auto 6.
Qed.

(** X8.  A sample that decodes to no button followed by a run of the
    updater clears the pressed flag and changes nothing else, whatever
    button the current-button byte still names. *)
Theorem tick_released adcl adch m :
  is_byte adcl -> is_byte adch ->
  threshold_decode (adch * 256 + adcl) = BtnNone ->
  tick adcl adch m = sts BUTTON_IS_PRESSED 0 m.
Proof.
  intros Hl Hh Hd. unfold tick.
  assert (E : timer1 adcl adch m = sts BUTTON_IS_PRESSED 0 m).
  { rewrite timer1_spec by assumption. unfold threshold_decode in Hd. cbv zeta.
    destruct (adch * 256 + adcl <? 50); [discriminate |].
    destruct (adch * 256 + adcl <? 176); [discriminate |].
    destruct (adch * 256 + adcl <? 352); [discriminate |].
    destruct (adch * 256 + adcl <? 555); [discriminate | reflexivity]. }
  rewrite E. apply timer4_not_pressed. apply lds_sts_same.
Qed.

(** One sample in the Right range followed by one run of the updater. *)
Lemma tick_right adcl adch m :
  is_byte adcl -> is_byte adch ->
  threshold_decode (adch * 256 + adcl) = BtnRight ->
  composition_ok m ->
  let m' := tick adcl adch m in
  Cursor m' = (if Cursor m =? 15 then 15 else Cursor m + 1)
  /\ forall c, 0 <= c <= 15 ->
       LineBuffer m' c = LineBuffer m c
       /\ PerColumnIndex m' c = PerColumnIndex m c.
Proof.
  intros Hl Hh Hd [Hcur _] m'. subst m'. unfold tick.
  pose proof (timer1_pressing adcl adch m Hl Hh) as Hp. cbv zeta in Hp.
  rewrite Hd in Hp.
  destruct (timer1_composition adcl adch m) as [Ec Ecol].
  rewrite (timer4_right _ Hp), Ec.
  destruct (Z.eqb_spec (Cursor m) 15) as [E | E].
  - split; [now rewrite Ec | assumption].
  - split.
    + unfold Cursor at 1. rewrite lds_sts_same. unfold inc.
      rewrite Z.mod_small; lia.
    + intros c Hc. destruct (Ecol c Hc) as [<- <-].
      split; labels; apply lds_sts_other; lia.
Qed.

(** One sample in the Left range followed by one run of the updater. *)
Lemma tick_left adcl adch m :
  is_byte adcl -> is_byte adch ->
  threshold_decode (adch * 256 + adcl) = BtnLeft ->
  composition_ok m ->
  let m' := tick adcl adch m in
  Cursor m' = (if Cursor m =? 0 then 0 else Cursor m - 1)
  /\ forall c, 0 <= c <= 15 ->
       LineBuffer m' c = LineBuffer m c
       /\ PerColumnIndex m' c = PerColumnIndex m c.
Proof.
  intros Hl Hh Hd [Hcur _] m'. subst m'. unfold tick.
  pose proof (timer1_pressing adcl adch m Hl Hh) as Hp. cbv zeta in Hp.
  rewrite Hd in Hp.
  destruct (timer1_composition adcl adch m) as [Ec Ecol].
  rewrite (timer4_left _ Hp), Ec.
  destruct (Z.eqb_spec (Cursor m) 0) as [E | E].
  - split; [now rewrite Ec | assumption].
  - split.
    + unfold Cursor at 1. rewrite lds_sts_same. unfold dec.
      rewrite Z.mod_small; lia.
    + intros c Hc. destruct (Ecol c Hc) as [<- <-].
      split; labels; apply lds_sts_other; lia.
Qed.

Lemma column_ok_not_blank m c :
  column_ok m c -> LineBuffer m c = lpm_charset (PerColumnIndex m c) ->
  0 <= PerColumnIndex m c <= 37 -> LineBuffer m c <> SPACE.
Proof.
  intros _ El Hi Es. rewrite El in Es.
  destruct (Z.eq_dec (PerColumnIndex m c) 37) as [E | E].
  - rewrite E, charset_terminator in Es. discriminate.
  - destruct (charset_letters (PerColumnIndex m c)) as [_ Hn]; [lia | contradiction].
Qed.

(** X9.  In a reachable state whose selected cell does not hold the
    terminator, an Up tick followed by a Down tick brings the selected
    column back to the cell and the stored index it had, and leaves the
    cursor and the other columns alone. *)
Theorem up_then_down_round_trip ul uh dl dh m :
  reachable m ->
  is_byte ul -> is_byte uh -> is_byte dl -> is_byte dh ->
  threshold_decode (uh * 256 + ul) = BtnUp ->
  threshold_decode (dh * 256 + dl) = BtnDown ->
  LineBuffer m (Cursor m) <> 0 ->
  let m' := tick dl dh (tick ul uh m) in
  Cursor m' = Cursor m
  /\ forall c, 0 <= c <= 15 ->
       LineBuffer m' c = LineBuffer m c
       /\ PerColumnIndex m' c = PerColumnIndex m c.
Proof.
  intros Hr Bul Buh Bdl Bdh Hu Hd Hnz m'. subst m'.
  pose proof (reachable_ok m Hr) as Hok. pose proof Hok as [Hcur Hcol].
  pose proof (Hcol _ Hcur) as Hk.
  destruct (tick_up ul uh m Bul Buh Hu Hok) as (_ & _ & Ec1 & Ho1 & Hblank & _ & Hinc).
  pose proof (tick_ok ul uh m Hok) as Hok1.
  destruct (tick_down dl dh _ Bdl Bdh Hd Hok1) as (Ec2 & Ho2 & Hz & Hnz2).
  rewrite Ec1 in *. split; [assumption |].
  intros c Hc. destruct (Z.eq_dec c (Cursor m)) as [-> | Hne].
  - destruct (Z.eq_dec (LineBuffer m (Cursor m)) SPACE) as [Es | Es].
    + destruct (Hblank Es) as [Ei1 El1]. destruct (Hz Ei1) as [El2 Ei2].
      now rewrite El2, Ei2, Es, (column_ok_blank _ _ Hk Es).
    + destruct (column_ok_set _ _ Hk Es) as (Hi & El & Hterm).
      assert (Hn37 : PerColumnIndex m (Cursor m) <> 37)
        by (intros E; apply Hnz, Hterm, E).
      destruct (Hinc Es Hn37) as [Ei1 El1].
      destruct Hnz2 as [Ei2 El2]; [lia |].
      rewrite Ei1 in Ei2, El2.
      replace (PerColumnIndex m (Cursor m) + 1 - 1)
        with (PerColumnIndex m (Cursor m)) in Ei2, El2 by lia.
      now rewrite El2, Ei2, El.
  - destruct (Ho2 c Hc Hne) as [-> ->]. now apply Ho1.
Qed.

(** X10.  In a reachable state whose selected cell is not blank, a Down
    tick followed by an Up tick brings the selected column back to the
    cell and the stored index it had: from index 0 the cell is blanked
    and then set to the first table byte again. *)
Theorem down_then_up_round_trip ul uh dl dh m :
  reachable m ->
  is_byte ul -> is_byte uh -> is_byte dl -> is_byte dh ->
  threshold_decode (uh * 256 + ul) = BtnUp ->
  threshold_decode (dh * 256 + dl) = BtnDown ->
  LineBuffer m (Cursor m) <> SPACE ->
  let m' := tick ul uh (tick dl dh m) in
  Cursor m' = Cursor m
  /\ forall c, 0 <= c <= 15 ->
       LineBuffer m' c = LineBuffer m c
       /\ PerColumnIndex m' c = PerColumnIndex m c.
Proof.
  intros Hr Bul Buh Bdl Bdh Hu Hd Es m'. subst m'.
  pose proof (reachable_ok m Hr) as Hok. pose proof Hok as [Hcur Hcol].
  pose proof (Hcol _ Hcur) as Hk.
  destruct (column_ok_set _ _ Hk Es) as (Hi & El & _).
  destruct (tick_down dl dh m Bdl Bdh Hd Hok) as (Ec1 & Ho1 & Hz & Hnz).
  pose proof (tick_ok dl dh m Hok) as Hok1.
  destruct (tick_up ul uh _ Bul Buh Hu Hok1) as (_ & _ & Ec2 & Ho2 & Hblank & _ & Hinc).
  rewrite Ec1 in *. split; [assumption |].
  intros c Hc. destruct (Z.eq_dec c (Cursor m)) as [-> | Hne].
  - destruct (Z.eq_dec (PerColumnIndex m (Cursor m)) 0) as [E0 | E0].
    + destruct (Hz E0) as [El1 Ei1]. destruct (Hblank El1) as [Ei2 El2].
      now rewrite El2, Ei2, El, E0.
    + destruct (Hnz E0) as [Ei1 El1].
      assert (Hs1 : LineBuffer (tick dl dh m) (Cursor m) <> SPACE).
      { destruct Hok1 as [_ Hcol1].
        apply (column_ok_not_blank _ _ (Hcol1 _ Hcur)); rewrite ?Ei1; [assumption | lia]. }
      destruct (Hinc Hs1) as [Ei2 El2]; [lia |].
      rewrite Ei1 in Ei2, El2.
      replace (PerColumnIndex m (Cursor m) - 1 + 1)
        with (PerColumnIndex m (Cursor m)) in Ei2, El2 by lia.
      now rewrite El2, Ei2, El.
  - destruct (Ho2 c Hc Hne) as [-> ->]. now apply Ho1.
Qed.

(** X11.  In a reachable state, a Right tick followed by a Left tick
    returns the cursor to its column unless it stood at column 15, a Left
    tick followed by a Right tick returns it unless it stood at column 0,
    and neither pair writes a cell or a stored index. *)
Theorem right_left_round_trip rl rh ll lh m :
  reachable m ->
  is_byte rl -> is_byte rh -> is_byte ll -> is_byte lh ->
  threshold_decode (rh * 256 + rl) = BtnRight ->
  threshold_decode (lh * 256 + ll) = BtnLeft ->
  (Cursor m <> 15 -> Cursor (tick ll lh (tick rl rh m)) = Cursor m)
  /\ (Cursor m <> 0 -> Cursor (tick rl rh (tick ll lh m)) = Cursor m)
  /\ (forall c, 0 <= c <= 15 ->
        LineBuffer (tick ll lh (tick rl rh m)) c = LineBuffer m c
        /\ PerColumnIndex (tick ll lh (tick rl rh m)) c = PerColumnIndex m c)
  /\ (forall c, 0 <= c <= 15 ->
        LineBuffer (tick rl rh (tick ll lh m)) c = LineBuffer m c
        /\ PerColumnIndex (tick rl rh (tick ll lh m)) c = PerColumnIndex m c).
Proof.
  intros Hr Brl Brh Bll Blh Hdr Hdl.
  pose proof (reachable_ok m Hr) as Hok. pose proof Hok as [Hcur _].
  destruct (tick_right rl rh m Brl Brh Hdr Hok) as [Er Cr].
  destruct (tick_left ll lh m Bll Blh Hdl Hok) as [El Cl].
  destruct (tick_left ll lh _ Bll Blh Hdl (tick_ok rl rh m Hok)) as [Erl Crl].
  destruct (tick_right rl rh _ Brl Brh Hdr (tick_ok ll lh m Hok)) as [Elr Clr].
  split; [| split; [| split]].
  - intros Hn. rewrite Erl, Er.
    destruct (Z.eqb_spec (Cursor m) 15); [contradiction |].
    destruct (Z.eqb_spec (Cursor m + 1) 0); lia.
  - intros Hn. rewrite Elr, El.
    destruct (Z.eqb_spec (Cursor m) 0); [contradiction |].
    destruct (Z.eqb_spec (Cursor m - 1) 15); lia.
  - intros c Hc. destruct (Crl c Hc) as [-> ->]. now apply Cr.
  - intros c Hc. destruct (Clr c Hc) as [-> ->]. now apply Cl.
Qed.

Lemma reachable_tick adcl adch m :
  reachable m -> is_byte adcl -> is_byte adch -> reachable (tick adcl adch m).
Proof. intros H Hl Hh. unfold tick. now apply reach_timer4, reach_timer1. Qed.

Lemma iter_tick_ok adcl adch n m :
  composition_ok m -> composition_ok (Nat.iter n (tick adcl adch) m).
Proof.
  intros H. induction n as [| n IH]; [assumption |].
  cbn [Nat.iter nat_rect]. now apply tick_ok.
Qed.

(** X12.  A direction held over [n] ticks: from a reachable state the
    cursor stands at min(15, Cursor + n) after [n] Right ticks and at
    max(0, Cursor - n) after [n] Left ticks. *)
Theorem cursor_ticks_saturate rl rh ll lh m n :
  reachable m ->
  is_byte rl -> is_byte rh -> is_byte ll -> is_byte lh ->
  threshold_decode (rh * 256 + rl) = BtnRight ->
  threshold_decode (lh * 256 + ll) = BtnLeft ->
  Cursor (Nat.iter n (tick rl rh) m) = Z.min 15 (Cursor m + Z.of_nat n)
  /\ Cursor (Nat.iter n (tick ll lh) m) = Z.max 0 (Cursor m - Z.of_nat n).
Proof.
  intros Hr Brl Brh Bll Blh Hdr Hdl.
  pose proof (reachable_ok m Hr) as Hok. pose proof Hok as [Hcur _].
  split.
  - induction n as [| n IH]; [cbn [Nat.iter nat_rect]; lia |].
    change (Nat.iter (S n) (tick rl rh) m)
      with (tick rl rh (Nat.iter n (tick rl rh) m)).
    destruct (tick_right rl rh _ Brl Brh Hdr (iter_tick_ok rl rh n m Hok)) as [E _].
    rewrite E, IH.
    destruct (Z.eqb_spec (Z.min 15 (Cursor m + Z.of_nat n)) 15); lia.
  - induction n as [| n IH]; [cbn [Nat.iter nat_rect]; lia |].
    change (Nat.iter (S n) (tick ll lh) m)
      with (tick ll lh (Nat.iter n (tick ll lh) m)).
    destruct (tick_left ll lh _ Bll Blh Hdl (iter_tick_ok ll lh n m Hok)) as [E _].
    rewrite E, IH.
    destruct (Z.eqb_spec (Z.max 0 (Cursor m - Z.of_nat n)) 0); lia.
Qed.

Lemma up_ticks_set ul uh m n :
  is_byte ul -> is_byte uh ->
  threshold_decode (uh * 256 + ul) = BtnUp ->
  composition_ok m -> LineBuffer m (Cursor m) <> SPACE ->
  let m' := Nat.iter n (tick ul uh) m in
  Cursor m' = Cursor m
  /\ PerColumnIndex m' (Cursor m)
     = Z.min 37 (PerColumnIndex m (Cursor m) + Z.of_nat n)
  /\ LineBuffer m' (Cursor m) = lpm_charset (PerColumnIndex m' (Cursor m)).
Proof.
  intros Bl Bh Hu Hok Es m'. subst m'.
  pose proof Hok as [Hcur Hcol].
  destruct (column_ok_set _ _ (Hcol _ Hcur) Es) as (Hi & El & _).
  induction n as [| n IH].
  - cbn [Nat.iter nat_rect]. repeat split; [lia | assumption].
  - change (Nat.iter (S n) (tick ul uh) m)
      with (tick ul uh (Nat.iter n (tick ul uh) m)).
    destruct IH as (Ec & Ei & Ell).
    pose proof (iter_tick_ok ul uh n m Hok) as Hokn.
    destruct (tick_up ul uh _ Bl Bh Hu Hokn) as (_ & _ & Ec' & _ & _ & Htop & Hinc).
    rewrite Ec in *.
    assert (Hsn : LineBuffer (Nat.iter n (tick ul uh) m) (Cursor m) <> SPACE).
    { destruct Hokn as [_ Hcoln].
      apply (column_ok_not_blank _ _ (Hcoln _ Hcur)); [assumption | lia]. }
    split; [assumption |].
    destruct (Z.eq_dec (PerColumnIndex (Nat.iter n (tick ul uh) m) (Cursor m)) 37)
      as [E | E].
    + destruct (Htop Hsn E) as (Ei' & El' & _).
      rewrite Ei', El'. split; [lia | reflexivity].
    + destruct (Hinc Hsn E) as (Ei' & El').
      rewrite Ei', El'. split; [lia | reflexivity].
Qed.

(** X13.  Up held over [n] ticks at one column of a reachable state: from
    a cell that is not blank the stored index goes to min(37, index + n),
    from a blank cell [n + 1] ticks take it to min(37, n); the cell holds
    the table byte at that index and the cursor stays.  The index never
    passes 37 and never wraps. *)
Theorem up_ticks_saturate ul uh m n :
  reachable m ->
  is_byte ul -> is_byte uh ->
  threshold_decode (uh * 256 + ul) = BtnUp ->
  let c := Cursor m in
  (LineBuffer m c <> SPACE ->
   let m' := Nat.iter n (tick ul uh) m in
   Cursor m' = c
   /\ PerColumnIndex m' c = Z.min 37 (PerColumnIndex m c + Z.of_nat n)
   /\ LineBuffer m' c = nth (Z.to_nat (PerColumnIndex m' c)) AVAILABLE_CHARSET 0)
  /\ (LineBuffer m c = SPACE ->
      let m' := Nat.iter (S n) (tick ul uh) m in
      Cursor m' = c
      /\ PerColumnIndex m' c = Z.min 37 (Z.of_nat n)
      /\ LineBuffer m' c = nth (Z.to_nat (PerColumnIndex m' c)) AVAILABLE_CHARSET 0).
Proof.
  intros Hr Bl Bh Hu c. subst c.
  pose proof (reachable_ok m Hr) as Hok. pose proof Hok as [Hcur Hcol].
  split.
  - intros Es m'. subst m'.
    destruct (column_ok_set _ _ (Hcol _ Hcur) Es) as (Hi & _ & _).
    destruct (up_ticks_set ul uh m n Bl Bh Hu Hok Es) as (Ec & Ei & El).
    split; [assumption |]. split; [assumption |].
    rewrite El. apply charset_in_table. lia.
  - intros Es m'. subst m'. rewrite Nat.iter_succ_r.
    destruct (tick_up ul uh m Bl Bh Hu Hok) as (_ & _ & Ec1 & _ & Hblank & _).
    destruct (Hblank Es) as [Ei1 El1].
    pose proof (tick_ok ul uh m Hok) as Hok1.
    assert (Hs1 : LineBuffer (tick ul uh m) (Cursor (tick ul uh m)) <> SPACE).
    { rewrite Ec1. destruct Hok1 as [_ Hcol1].
      apply (column_ok_not_blank _ _ (Hcol1 _ Hcur)); rewrite ?Ei1; [assumption | lia]. }
    destruct (up_ticks_set ul uh _ n Bl Bh Hu Hok1 Hs1) as (Ec & Ei & El).
    rewrite Ec1, ?Ei1 in *.
    split; [assumption |]. split; [assumption |].
    rewrite El. apply charset_in_table. lia.
Qed.

(** X14.  Down held over [n] ticks at one column of a reachable state: the
    stored index goes to max(0, index - n) and never below 0; the cell is
    blank once [n] exceeds the index it started from, or if it started
    blank, and holds the table byte at the new index until then. *)
Theorem down_ticks_saturate dl dh m n :
  reachable m ->
  is_byte dl -> is_byte dh ->
  threshold_decode (dh * 256 + dl) = BtnDown ->
  let c := Cursor m in
  let m' := Nat.iter n (tick dl dh) m in
  Cursor m' = c
  /\ PerColumnIndex m' c = Z.max 0 (PerColumnIndex m c - Z.of_nat n)
  /\ LineBuffer m' c
     = if (LineBuffer m c =? SPACE) || (PerColumnIndex m c <? Z.of_nat n)
       then SPACE
       else nth (Z.to_nat (PerColumnIndex m c - Z.of_nat n)) AVAILABLE_CHARSET 0.
Proof.
  intros Hr Bl Bh Hd c m'. subst c m'.
  pose proof (reachable_ok m Hr) as Hok. pose proof Hok as [Hcur Hcol].
  pose proof (Hcol _ Hcur) as Hk.
  assert (Hi : 0 <= PerColumnIndex m (Cursor m) <= 37)
    by (destruct Hk as [[_ E] | [Hi _]]; lia).
  induction n as [| n IH].
  - cbn [Nat.iter nat_rect]. split; [reflexivity |]. split; [lia |].
    replace (PerColumnIndex m (Cursor m) - Z.of_nat 0)
      with (PerColumnIndex m (Cursor m)) by lia.
    destruct (Z.eqb_spec (LineBuffer m (Cursor m)) SPACE) as [Es | Es]; [assumption |].
    destruct (Z.ltb_spec (PerColumnIndex m (Cursor m)) (Z.of_nat 0)); [lia |].
    cbn [orb]. destruct (column_ok_set _ _ Hk Es) as (_ & El & _).
    rewrite El. now apply charset_in_table.
  - change (Nat.iter (S n) (tick dl dh) m)
      with (tick dl dh (Nat.iter n (tick dl dh) m)).
    destruct IH as (Ec & Ei & _).
    pose proof (iter_tick_ok dl dh n m Hok) as Hokn.
    destruct (tick_down dl dh _ Bl Bh Hd Hokn) as (Ec' & _ & Hz & Hnz).
    rewrite Ec in *. split; [assumption |].
    destruct (Z.eq_dec (PerColumnIndex (Nat.iter n (tick dl dh) m) (Cursor m)) 0)
      as [E | E].
    + destruct (Hz E) as [El' Ei']. rewrite Ei', El'. split; [lia |].
      destruct (Z.ltb_spec (PerColumnIndex m (Cursor m)) (Z.of_nat (S n))); [| lia].
      now rewrite orb_true_r.
    + destruct (Hnz E) as [Ei' El']. rewrite Ei', El', Ei. split; [lia |].
      destruct (Z.eqb_spec (LineBuffer m (Cursor m)) SPACE) as [Es | Es].
      * pose proof (column_ok_blank _ _ Hk Es). lia.
      * destruct (Z.ltb_spec (PerColumnIndex m (Cursor m)) (Z.of_nat (S n))); [lia |].
        cbn [orb]. rewrite charset_in_table by lia. f_equal. lia.
Qed.

Lemma clear_lcd_row_in_range : Forall lcd_in_range (clear_lcd_row 1).
Proof.
  change (clear_lcd_row 1)
    with (flat_map (fun col => [lcd_gotoxy 1 col; lcd_putchar SPACE])
            [0; 1; 2; 3; 4; 5; 6; 7; 8; 9; 10; 11; 12; 13; 14; 15]).
  cbn [flat_map app]. repeat constructor; try discriminate.
Qed.

Lemma Forall_app_intro (P : lcd_call -> Prop) l1 l2 :
  Forall P l1 -> Forall P l2 -> Forall P (l1 ++ l2).
Proof. intros H1 H2. apply Forall_app. now split. Qed.

Lemma test_which_button_in_range m :
  Forall lcd_in_range (snd (test_which_button m)).
Proof.
  unfold test_which_button.
  destruct (lds LAST_BUTTON_PRESSED m =? lds CURRENT_BUTTON_PRESSED m);
    [constructor |]. cbn [snd]. unfold set_char.
  destruct (Z.eqb_spec (lds CURRENT_BUTTON_PRESSED m) RIGHT) as [-> | _];
    [| destruct (Z.eqb_spec (lds CURRENT_BUTTON_PRESSED m) UP) as [-> | _];
       [| destruct (Z.eqb_spec (lds CURRENT_BUTTON_PRESSED m) DOWN) as [-> | _];
          [| destruct (Z.eqb_spec (lds CURRENT_BUTTON_PRESSED m) LEFT) as [-> | _];
             [| constructor]]]];
    (apply Forall_app_intro; [apply clear_lcd_row_in_range |]);
    repeat constructor; try discriminate.
Qed.

Lemma set_counter_in_range m :
  0 <= Cursor m <= 15 -> Forall lcd_in_range (set_counter m).
Proof.
  intros Hc. unfold set_counter. fold (Cursor m).
  destruct (Z.eqb_spec (lds (add_adc TOP_LINE_CONTENT (Cursor m)) m) 0);
    [constructor |].
  repeat constructor; cbn [lcd_in_range]; try assumption; lia.
Qed.

(** X15.  With the cursor in 0..15, as in every reachable state, each
    lcd_gotoxy of a serviced pass of the polling loop names row 0 or 1 and
    a column in 0..15, and no lcd_putchar of the pass writes the byte 0. *)
Theorem polling_loop_in_display tifr3 m m' out :
  0 <= Cursor m <= 15 ->
  polling_loop tifr3 m = Some (m', out) ->
  Forall lcd_in_range out.
Proof.
  intros Hc. unfold polling_loop, set_button_press.
  destruct (Z.testbit tifr3 OCF3A); [| discriminate].
  assert (Hg : lcd_in_range (lcd_gotoxy 1 15)) by (cbn; lia).
  destruct (lds BUTTON_IS_PRESSED m =? 0).
  - intros [= _ <-]. cbn [app].
    constructor; [exact Hg |]. constructor; [discriminate |].
    destruct (tifr3 =? 0); [constructor | now apply set_counter_in_range].
  - pose proof (test_which_button_in_range m) as Hind.
    assert (Hcur : 0 <= Cursor (fst (test_which_button m)) <= 15).
    { destruct (test_which_button_mem m) as [-> | ->]; [assumption |].
      unfold Cursor in *. rewrite lds_sts_other; [assumption | labels; lia]. }
    destruct (test_which_button m) as [m1 out1]. cbn [fst snd] in *.
    intros [= _ <-]. cbn [app].
    constructor; [exact Hg |]. constructor; [discriminate |].
    apply Forall_app_intro; [assumption |].
    destruct (tifr3 =? 0); [constructor | now apply set_counter_in_range].
Qed.

(** What a tick with a sample in some button's range leaves in the button
    bytes, whatever they held. *)
Lemma tick_button_bytes adcl adch m :
  is_byte adcl -> is_byte adch ->
  threshold_decode (adch * 256 + adcl) <> BtnNone ->
  0 <= Cursor m <= 15 ->
  let m' := tick adcl adch m in
  lds BUTTON_IS_PRESSED m' = 1
  /\ lds CURRENT_BUTTON_PRESSED m'
     = lds CURRENT_BUTTON_PRESSED (timer1 adcl adch (fun _ => 0))
  /\ lds LAST_BUTTON_PRESSED m' = lds LAST_BUTTON_PRESSED m
  /\ 0 <= Cursor m' <= 15.
Proof.
  intros Hl Hh Hd Hc m'. subst m'. unfold tick.
  assert (Hc1 : 0 <= Cursor (timer1 adcl adch m) <= 15)
    by (destruct (timer1_composition adcl adch m) as [-> _]; assumption).
  assert (N1 : BUTTON_IS_PRESSED <> CURRENT_BUTTON_PRESSED) by (labels; lia).
  assert (Hb : lds BUTTON_IS_PRESSED (timer1 adcl adch m) = 1
               /\ lds CURRENT_BUTTON_PRESSED (timer1 adcl adch m)
                  = lds CURRENT_BUTTON_PRESSED (timer1 adcl adch (fun _ => 0))).
  { rewrite !timer1_spec by assumption. unfold threshold_decode in Hd. cbv zeta.
    destruct (adch * 256 + adcl <? 50);
      [| destruct (adch * 256 + adcl <? 176);
         [| destruct (adch * 256 + adcl <? 352);
            [| destruct (adch * 256 + adcl <? 555); [| contradiction]]]];
      rewrite !lds_sts_same, (lds_sts_other _ _ _ _ N1), lds_sts_same; now split. }
  destruct Hb as [Hb1 Hb2].
  rewrite !timer4_frame by (try assumption; unfold Cursor in *; labels; lia).
  rewrite Hb1, Hb2.
  split; [reflexivity |]. split; [reflexivity |].
  split; [apply timer1_frame; labels; lia | now apply timer4_cursor_range].
Qed.

(** X16.  A button held: once a serviced pass has run after the button was
    sampled, any number of further ticks with the same sample leave the
    last button equal to the current one, and the next serviced pass
    writes the '*' marker and the selected cell only: no row is cleared
    and no letter is drawn again. *)
Theorem held_button_no_redraw adcl adch tifr3 m m2 out k :
  is_byte adcl -> is_byte adch ->
  threshold_decode (adch * 256 + adcl) <> BtnNone ->
  0 <= Cursor m <= 15 ->
  polling_loop tifr3 (tick adcl adch m) = Some (m2, out) ->
  let m3 := Nat.iter k (tick adcl adch) m2 in
  polling_loop tifr3 m3
  = Some (m3, [lcd_gotoxy 1 15; lcd_putchar ASTERISK] ++ set_counter m3).
Proof.
  intros Hl Hh Hd Hc Hp m3.
  pose (letter := lds CURRENT_BUTTON_PRESSED (timer1 adcl adch (fun _ => 0))).
  assert (J : lds BUTTON_IS_PRESSED m3 = 1
              /\ lds CURRENT_BUTTON_PRESSED m3 = letter
              /\ lds LAST_BUTTON_PRESSED m3 = letter
              /\ 0 <= Cursor m3 <= 15).
  { subst m3. induction k as [| k IH].
    - cbn [Nat.iter nat_rect].
      destruct (tick_button_bytes adcl adch m Hl Hh Hd Hc) as (E1 & E2 & _ & E4).
      assert (N1 : BUTTON_IS_PRESSED <> LAST_BUTTON_PRESSED) by (labels; lia).
      assert (N2 : CURRENT_BUTTON_PRESSED <> LAST_BUTTON_PRESSED) by (labels; lia).
      assert (N3 : CURRENT_CHAR_INDEX <> LAST_BUTTON_PRESSED) by (labels; lia).
      pose proof (polling_loop_frame _ _ _ _ _ Hp N1) as F1.
      pose proof (polling_loop_frame _ _ _ _ _ Hp N2) as F2.
      pose proof (polling_loop_frame _ _ _ _ _ Hp N3) as F3.
      unfold Cursor in *. rewrite F1, F2, F3, E1, E2.
      split; [reflexivity |]. split; [reflexivity |]. split; [| assumption].
      revert Hp. unfold polling_loop, set_button_press.
      destruct (Z.testbit tifr3 OCF3A); [| discriminate].
      rewrite E1. change (1 =? 0) with false. cbv iota.
      pose proof (test_which_button_last (tick adcl adch m)) as El.
      destruct (test_which_button (tick adcl adch m)) as [m1 out1].
      cbn [fst] in El. intros [= <- _]. now rewrite El, E2.
    - change (Nat.iter (S k) (tick adcl adch) m2)
        with (tick adcl adch (Nat.iter k (tick adcl adch) m2)).
      destruct IH as (_ & _ & I3 & I4).
      destruct (tick_button_bytes adcl adch _ Hl Hh Hd I4) as (E1 & E2 & E3 & E4).
      rewrite E1, E2, E3, I3. now repeat split. }
  destruct J as (J1 & J2 & J3 & J4).
  assert (Hs : Z.testbit tifr3 OCF3A = true).
  { revert Hp. unfold polling_loop. now destruct (Z.testbit tifr3 OCF3A). }
  unfold polling_loop, set_button_press. rewrite Hs, J1.
  change (1 =? 0) with false. cbv iota.
  rewrite test_which_button_same by congruence.
  destruct (Z.eqb_spec tifr3 0) as [E | _];
    [now apply serviced_nonzero in Hs | reflexivity].
Qed.

(** X17.  The sampler running inside the indicator.  When the current
    button differs from the last one and is one of the four, and a run of
    the sampler that samples a button comes between the load that
    chooses the column and the load in set_char, the routine writes the
    letter of the newly sampled button in the column of the button it
    read first, and records the new button as the last one. *)
Theorem indicator_letter_of_later_sample adcl adch m :
  is_byte adcl -> is_byte adch ->
  lds CURRENT_BUTTON_PRESSED m <> lds LAST_BUTTON_PRESSED m ->
  currentButton m <> BtnNone ->
  threshold_decode (adch * 256 + adcl) <> BtnNone ->
  let m1 := timer1 adcl adch m in
  currentButton m1 = threshold_decode (adch * 256 + adcl)
  /\ test_which_button_irq [Timer1 adcl adch] [] m
     = (sts LAST_BUTTON_PRESSED (lds CURRENT_BUTTON_PRESSED m1) m1,
        clear_lcd_row 1
        ++ [lcd_gotoxy 1 (indicator_column (currentButton m));
            lcd_putchar (lds CURRENT_BUTTON_PRESSED m1)]).
Proof.
  intros Hl Hh Hne Hb Hd m1. subst m1. split.
  - pose proof (timer1_pressing adcl adch m Hl Hh) as Hp. cbv zeta in Hp.
    unfold currentButton.
    destruct (threshold_decode (adch * 256 + adcl)); try contradiction;
      destruct Hp as [_ ->]; reflexivity.
  - unfold test_which_button_irq, set_char, currentButton, identity_of_code in *.
    cbn [run_handlers run_handler fold_left].
    destruct (Z.eqb_spec (lds LAST_BUTTON_PRESSED m) (lds CURRENT_BUTTON_PRESSED m));
      [congruence |].
    destruct (lds CURRENT_BUTTON_PRESSED m =? RIGHT); [reflexivity |].
    destruct (lds CURRENT_BUTTON_PRESSED m =? UP); [reflexivity |].
    destruct (lds CURRENT_BUTTON_PRESSED m =? DOWN); [reflexivity |].
    destruct (lds CURRENT_BUTTON_PRESSED m =? LEFT); [reflexivity |].
    contradiction.
Qed.

End Firmware.

(** ** The theorems at concrete inputs

    The data segment at 0x200, erased flash (0xFF) after the table, OCF3A
    as bit 1 of TIFR3, and a data space that is all zero before
    initialize_data_space runs. *)

Lemma DSEG_0x200 : 0x200 <= 512 /\ 512 + 36 <= 0x2200.
Proof. lia. Defined.

(** A sample of 100 is in the Up range. *)
Lemma button_decoder_thresholds_witness :
  is_byte 100 /\ is_byte 0
  /\ decoded 512 (timer1 512 100 0 (fun _ => 0)) = threshold_decode (0 * 256 + 100).
Proof.
  split; [unfold is_byte; lia |]. split; [unfold is_byte; lia |].
  apply button_decoder_thresholds; unfold is_byte; lia.
Defined.

(** Right pressed (sample 0), then released (sample 0x384): the pressed
    flag is clear and the current-button byte is still 'R'. *)
Lemma released_button_keeps_letter :
  let m := timer1 512 0x84 0x03 (timer1 512 0 0 (fun _ => 0)) in
  isPressed 512 m = false
  /\ currentButton 512 m = BtnRight
  /\ currentButton 512 m <> BtnNone.
Proof.
  cbv zeta. split; [reflexivity |]. split; [reflexivity |].
  vm_compute. discriminate.
Qed.

Lemma sampler_publishes_witness :
  is_byte 0x84 /\ is_byte 0x03
  /\ let m := timer1 512 0 0 (fun _ => 0) in
     let m' := timer1 512 0x84 0x03 m in
     let b := threshold_decode (0x03 * 256 + 0x84) in
     (b <> BtnNone -> isPressed 512 m' = true /\ currentButton 512 m' = b)
     /\ (b = BtnNone ->
         isPressed 512 m' = false
         /\ lds (CURRENT_BUTTON_PRESSED 512) m' = lds (CURRENT_BUTTON_PRESSED 512) m)
     /\ (isPressed 512 m' = true -> currentButton 512 m' <> BtnNone).
Proof.
  split; [unfold is_byte; lia |]. split; [unfold is_byte; lia |].
  apply (sampler_publishes 512 0x84 0x03 (timer1 512 0 0 (fun _ => 0)));
    unfold is_byte; lia.
Defined.

Lemma status_marker_first_witness :
  Z.testbit 2 1 = true
  /\ exists m' rest,
       polling_loop 512 1 2 (initialize_data_space 512 (fun _ => 0))
       = Some (m', lcd_gotoxy 1 15
                   :: lcd_putchar
                        (if isPressed 512 (initialize_data_space 512 (fun _ => 0))
                         then ASTERISK else DASH)
                   :: rest).
Proof.
  split; [reflexivity |].
  apply (proj1 (status_marker_first 512 1 2 (initialize_data_space 512 (fun _ => 0)))).
  reflexivity.
Defined.

(** At startup, with no button pressed, the selected cell is blank and a
    serviced pass writes a space at row 0, column 0.  With Up pressed for
    a sample and released before the pass, the current button differs from
    the last one, and the pass draws no letter and leaves the last-button
    byte as it was. *)
Lemma blank_cell_is_drawn :
  (let m := initialize_data_space 512 (fun _ => 0) in
   LineBuffer 512 m (Cursor 512 m) = SPACE
   /\ option_map snd (polling_loop 512 1 2 m)
      = Some [lcd_gotoxy 1 15; lcd_putchar DASH; lcd_gotoxy 0 0; lcd_putchar SPACE])
  /\ (let m := timer1 512 0x84 0x03
                 (timer1 512 100 0 (initialize_data_space 512 (fun _ => 0))) in
      lds (CURRENT_BUTTON_PRESSED 512) m = UP
      /\ lds (LAST_BUTTON_PRESSED 512) m = 0
      /\ option_map snd (polling_loop 512 1 2 m)
         = Some [lcd_gotoxy 1 15; lcd_putchar DASH; lcd_gotoxy 0 0; lcd_putchar SPACE]
      /\ option_map (fun r => lds (LAST_BUTTON_PRESSED 512) (fst r))
           (polling_loop 512 1 2 m)
         = Some 0).
Proof.
  cbv zeta. repeat split; vm_compute; reflexivity.
Qed.

Lemma refresh_tick_witness :
  Z.testbit 2 1 = true
  /\ is_byte (Cursor 512 (initialize_data_space 512 (fun _ => 0)))
  /\ let m := initialize_data_space 512 (fun _ => 0) in
     let c := Cursor 512 m in
     let marker :=
       [lcd_gotoxy 1 15; lcd_putchar (if isPressed 512 m then ASTERISK else DASH)] in
     let indicator := if isPressed 512 m then test_which_button 512 m else (m, []) in
     let render :=
       if LineBuffer 512 m c =? 0 then []
       else [lcd_gotoxy 0 c; lcd_putchar (LineBuffer 512 m c)] in
     polling_loop 512 1 2 m = Some (fst indicator, marker ++ snd indicator ++ render).
Proof.
  split; [reflexivity |].
  split; [vm_compute; split; [discriminate | reflexivity] |].
  apply (refresh_tick 512 DSEG_0x200 1 2 (initialize_data_space 512 (fun _ => 0)));
    [reflexivity | vm_compute; split; [discriminate | reflexivity]].
Defined.



(** Right pressed at column 0: the cursor moves to column 1. *)
Lemma cursor_clamps_witness :
  let m := timer1 512 0 0 (initialize_data_space 512 (fun _ => 0)) in
  0 <= Cursor 512 m <= 15
  /\ pressing 512 RIGHT m
  /\ Cursor 512 m <> 15
  /\ timer4 512 (fun _ => 255) m
     = sts (CURRENT_CHAR_INDEX 512) (Cursor 512 m + 1) m.
Proof.
  cbv zeta.
  set (m := timer1 512 0 0 (initialize_data_space 512 (fun _ => 0))).
  assert (Hc : 0 <= Cursor 512 m <= 15)
    by (vm_compute; split; discriminate).
  assert (Hp : pressing 512 RIGHT m)
    by (split; vm_compute; [discriminate | reflexivity]).
  assert (Hn : Cursor 512 m <> 15) by (vm_compute; discriminate).
  split; [exact Hc |]. split; [exact Hp |]. split; [exact Hn |].
  destruct (proj1 (cursor_clamps 512 DSEG_0x200 (fun _ => 255) 1) m Hc)
    as (_ & _ & H & _).
  exact (H Hp Hn).
Defined.

(** Column 0 at index 1 ('b'), then Down: index 0 and 'a'. *)
Lemma down_tick_witness :
  let m := timer1 512 0 1
             (Nat.iter 2 (tick 512 (fun _ => 255) 100 0)
                (initialize_data_space 512 (fun _ => 0))) in
  pressing 512 DOWN m
  /\ 0 <= Cursor 512 m <= 15
  /\ is_byte (PerColumnIndex 512 m (Cursor 512 m))
  /\ PerColumnIndex 512 m (Cursor 512 m) <> 0
  /\ PerColumnIndex 512 m (Cursor 512 m) <= 38
  /\ PerColumnIndex 512 (timer4 512 (fun _ => 255) m) (Cursor 512 m)
     = PerColumnIndex 512 m (Cursor 512 m) - 1
  /\ LineBuffer 512 (timer4 512 (fun _ => 255) m) (Cursor 512 m)
     = nth (Z.to_nat (PerColumnIndex 512 m (Cursor 512 m) - 1)) AVAILABLE_CHARSET 0
  /\ nth (Z.to_nat (PerColumnIndex 512 m (Cursor 512 m) - 1)) AVAILABLE_CHARSET 0
     = 97.
Proof.
  cbv zeta.
  set (m := timer1 512 0 1
              (Nat.iter 2 (tick 512 (fun _ => 255) 100 0)
                 (initialize_data_space 512 (fun _ => 0)))).
  assert (Hp : pressing 512 DOWN m)
    by (split; vm_compute; [discriminate | reflexivity]).
  assert (Hc : 0 <= Cursor 512 m <= 15)
    by (vm_compute; split; discriminate).
  assert (Hi : is_byte (PerColumnIndex 512 m (Cursor 512 m)))
    by (vm_compute; split; [discriminate | reflexivity]).
  assert (Hn : PerColumnIndex 512 m (Cursor 512 m) <> 0)
    by (vm_compute; discriminate).
  assert (Hr : PerColumnIndex 512 m (Cursor 512 m) <= 38)
    by (vm_compute; discriminate).
  split; [exact Hp |]. split; [exact Hc |]. split; [exact Hi |].
  split; [exact Hn |]. split; [exact Hr |].
  destruct (down_tick 512 DSEG_0x200 (fun _ => 255) m Hp Hc Hi)
    as (_ & _ & H).
  destruct (H Hn) as (Ei & El & _).
  split; [exact Ei |]. split; [exact (El Hr) |].
  vm_compute. reflexivity.
Defined.

(** The first Up after startup. *)
Lemma up_tick_witness :
  let m := timer1 512 100 0 (initialize_data_space 512 (fun _ => 0)) in
  reachable 512 (fun _ => 255) 1 m
  /\ pressing 512 UP m
  /\ LineBuffer 512 m (Cursor 512 m) = SPACE
  /\ PerColumnIndex 512 (timer4 512 (fun _ => 255) m) (Cursor 512 m) = 0
  /\ LineBuffer 512 (timer4 512 (fun _ => 255) m) (Cursor 512 m)
     = nth 0 AVAILABLE_CHARSET 0.
Proof.
  cbv zeta.
  set (m := timer1 512 100 0 (initialize_data_space 512 (fun _ => 0))).
  assert (Hr : reachable 512 (fun _ => 255) 1 m).
  { apply reach_timer1; [apply reach_start | |]; unfold is_byte; lia. }
  assert (Hp : pressing 512 UP m)
    by (split; vm_compute; [discriminate | reflexivity]).
  assert (Hs : LineBuffer 512 m (Cursor 512 m) = SPACE) by reflexivity.
  split; [exact Hr |]. split; [exact Hp |]. split; [exact Hs |].
  destruct (proj1 (up_tick 512 DSEG_0x200 (fun _ => 255) 1) m Hr Hp)
    as (_ & H & _).
  exact (H Hs).
Defined.

(** Up held from startup: the 37th tick leaves '!' at index 36 in column
    0; the 38th tick finds Up pressed and the cell not blank, stores
    index 37 and the terminator, and so changes the data space. *)
Lemma up_at_last_character_moves_on :
  let m37 := Nat.iter 37 (tick 512 (fun _ => 255) 100 0)
               (initialize_data_space 512 (fun _ => 0)) in
  pressing 512 UP m37
  /\ Cursor 512 m37 = 0
  /\ LineBuffer 512 m37 0 = 33
  /\ PerColumnIndex 512 m37 0 = 36
  /\ PerColumnIndex 512 (timer4 512 (fun _ => 255) m37) 0 = 37
  /\ LineBuffer 512 (timer4 512 (fun _ => 255) m37) 0 = 0
  /\ timer4 512 (fun _ => 255) m37 <> m37.
Proof.
  cbv zeta.
  split; [split; vm_compute; [discriminate | reflexivity] |].
  split; [vm_compute; reflexivity |].
  split; [vm_compute; reflexivity |].
  split; [vm_compute; reflexivity |].
  split; [vm_compute; reflexivity |].
  split; [vm_compute; reflexivity |].
  intros E. apply (f_equal (fun f : mem => f 514)) in E.
  vm_compute in E. discriminate.
Qed.

(** Up then Down at the blank column 0 after startup. *)
Lemma up_then_down_from_blank_witness :
  let m := initialize_data_space 512 (fun _ => 0) in
  reachable 512 (fun _ => 255) 1 m
  /\ is_byte 100 /\ is_byte 0 /\ is_byte 0 /\ is_byte 1
  /\ threshold_decode (0 * 256 + 100) = BtnUp
  /\ threshold_decode (1 * 256 + 0) = BtnDown
  /\ LineBuffer 512 m (Cursor 512 m) = SPACE
  /\ let c := Cursor 512 m in
     let m' := tick 512 (fun _ => 255) 0 1 (tick 512 (fun _ => 255) 100 0 m) in
     PerColumnIndex 512 m' c = 0 /\ LineBuffer 512 m' c = SPACE
     /\ Cursor 512 m' = c
     /\ forall c', 0 <= c' <= 15 ->
          LineBuffer 512 m' c' = LineBuffer 512 m c'
          /\ PerColumnIndex 512 m' c' = PerColumnIndex 512 m c'.
Proof.
  cbv zeta.
  assert (B100 : is_byte 100) by (unfold is_byte; lia).
  assert (B0 : is_byte 0) by (unfold is_byte; lia).
  assert (B1 : is_byte 1) by (unfold is_byte; lia).
  split; [apply reach_start |].
  split; [exact B100 |]. split; [exact B0 |]. split; [exact B0 |].
  split; [exact B1 |]. split; [reflexivity |]. split; [reflexivity |].
  split; [reflexivity |].
  exact (up_then_down_from_blank 512 DSEG_0x200 (fun _ => 255) 1 100 0 0 1
           (initialize_data_space 512 (fun _ => 0))
           (reach_start 512 (fun _ => 255) 1 (fun _ => 0))
           B100 B0 B0 B1 eq_refl eq_refl eq_refl).
Defined.

(** Every column is blank at startup. *)
Lemma blank_column_has_index_zero_witness :
  let m := initialize_data_space 512 (fun _ => 0) in
  reachable 512 (fun _ => 255) 1 m
  /\ forall c, 0 <= c <= 15 ->
       LineBuffer 512 m c = SPACE -> PerColumnIndex 512 m c = 0.
Proof.
  cbv zeta. split; [apply reach_start |].
  exact (proj1 (blank_column_has_index_zero 512 DSEG_0x200 (fun _ => 255) 1
                  (initialize_data_space 512 (fun _ => 0))
                  (reach_start 512 (fun _ => 255) 1 (fun _ => 0)))).
Defined.

(** ** The further properties at concrete inputs *)

(** 0x1234 against 0x1235. *)
Lemma compare_words_three_way_witness :
  is_byte 0x34 /\ is_byte 0x12 /\ is_byte 0x35 /\ is_byte 0x12
  /\ compare_words 0x34 0x12 0x35 0x12
     = match 0x12 * 256 + 0x34 ?= 0x12 * 256 + 0x35 with
       | Eq => 0
       | Lt => 255
       | Gt => 1
       end.
Proof.
  assert (B34 : is_byte 0x34) by (unfold is_byte; lia).
  assert (B12 : is_byte 0x12) by (unfold is_byte; lia).
  assert (B35 : is_byte 0x35) by (unfold is_byte; lia).
  split; [exact B34 |]. split; [exact B12 |]. split; [exact B35 |].
  split; [exact B12 |].
  exact (compare_words_three_way 0x34 0x12 0x35 0x12 B34 B12 B35 B12).
Defined.



Lemma reachable_cells_witness :
  let m := tick 512 (fun _ => 255) 100 0 (initialize_data_space 512 (fun _ => 0)) in
  reachable 512 (fun _ => 255) 1 m /\ 0 <= 0 <= 15
  /\ 0 <= PerColumnIndex 512 m 0 <= 37
  /\ In (LineBuffer 512 m 0) (SPACE :: AVAILABLE_CHARSET).
Proof.
  cbv zeta.
  set (m := tick 512 (fun _ => 255) 100 0 (initialize_data_space 512 (fun _ => 0))).
  assert (Hr : reachable 512 (fun _ => 255) 1 m).
  { apply reach_timer4, reach_timer1; [apply reach_start | |]; unfold is_byte; lia. }
  assert (Hc : 0 <= 0 <= 15) by lia.
  split; [exact Hr |]. split; [exact Hc |].
  destruct (reachable_cells 512 DSEG_0x200 (fun _ => 255) 1 m 0 Hr Hc)
    as (Hi & _ & _ & Hin).
  split; [exact Hi | exact Hin].
Defined.



(** The first cell of the top line is among the 36 bytes and is not
    written by the sampler. *)
Lemma timer1_writes_witness :
  BUTTON_IS_PRESSED 512 <= 514 <= CURRENT_BUTTON_PRESSED 512
  /\ 514 <> BUTTON_IS_PRESSED 512 /\ 514 <> CURRENT_BUTTON_PRESSED 512
  /\ lds 514 (timer1 512 100 0 (fun _ => 0)) = lds 514 (fun _ => 0).
Proof.
  assert (H0 : BUTTON_IS_PRESSED 512 <= 514 <= CURRENT_BUTTON_PRESSED 512)
    by (vm_compute; split; discriminate).
  assert (H1 : 514 <> BUTTON_IS_PRESSED 512) by (vm_compute; discriminate).
  assert (H2 : 514 <> CURRENT_BUTTON_PRESSED 512) by (vm_compute; discriminate).
  split; [exact H0 |]. split; [exact H1 |]. split; [exact H2 |].
  exact (proj1 (timer1_writes 512 100 0 (fun _ => 0)) 514 H0 H1 H2).
Defined.

(** Up pressed, then a sample of 0x384. *)
Lemma tick_released_witness :
  is_byte 0x84 /\ is_byte 0x03
  /\ threshold_decode (0x03 * 256 + 0x84) = BtnNone
  /\ tick 512 (fun _ => 255) 0x84 0x03 (timer1 512 100 0 (fun _ => 0))
     = sts (BUTTON_IS_PRESSED 512) 0 (timer1 512 100 0 (fun _ => 0)).
Proof.
  assert (B1 : is_byte 0x84) by (unfold is_byte; lia).
  assert (B2 : is_byte 0x03) by (unfold is_byte; lia).
  split; [exact B1 |]. split; [exact B2 |]. split; [reflexivity |].
  exact (tick_released 512 (fun _ => 255) 0x84 0x03 _ B1 B2 eq_refl).
Defined.

(** Column 0 holding 'b' at index 1. *)
Lemma up_then_down_round_trip_witness :
  let m := Nat.iter 2 (tick 512 (fun _ => 255) 100 0)
             (initialize_data_space 512 (fun _ => 0)) in
  reachable 512 (fun _ => 255) 1 m
  /\ is_byte 100 /\ is_byte 0 /\ is_byte 0 /\ is_byte 1
  /\ threshold_decode (0 * 256 + 100) = BtnUp
  /\ threshold_decode (1 * 256 + 0) = BtnDown
  /\ LineBuffer 512 m (Cursor 512 m) <> 0
  /\ Cursor 512 (tick 512 (fun _ => 255) 0 1 (tick 512 (fun _ => 255) 100 0 m))
     = Cursor 512 m.
Proof.
  cbv zeta.
  set (m := Nat.iter 2 (tick 512 (fun _ => 255) 100 0)
              (initialize_data_space 512 (fun _ => 0))).
  assert (B100 : is_byte 100) by (unfold is_byte; lia).
  assert (B0 : is_byte 0) by (unfold is_byte; lia).
  assert (B1 : is_byte 1) by (unfold is_byte; lia).
  assert (Hr : reachable 512 (fun _ => 255) 1 m).
  { subst m. cbn [Nat.iter nat_rect].
    repeat (apply reachable_tick; [| exact B100 | exact B0]).
    apply reach_start. }
  assert (Hn : LineBuffer 512 m (Cursor 512 m) <> 0) by (vm_compute; discriminate).
  split; [exact Hr |]. split; [exact B100 |]. split; [exact B0 |].
  split; [exact B0 |]. split; [exact B1 |]. split; [reflexivity |].
  split; [reflexivity |]. split; [exact Hn |].
  exact (proj1 (up_then_down_round_trip 512 DSEG_0x200 (fun _ => 255) 1
                  100 0 0 1 m Hr B100 B0 B0 B1 eq_refl eq_refl Hn)).
Defined.

Lemma down_then_up_round_trip_witness :
  let m := Nat.iter 2 (tick 512 (fun _ => 255) 100 0)
             (initialize_data_space 512 (fun _ => 0)) in
  reachable 512 (fun _ => 255) 1 m
  /\ is_byte 100 /\ is_byte 0 /\ is_byte 0 /\ is_byte 1
  /\ threshold_decode (0 * 256 + 100) = BtnUp
  /\ threshold_decode (1 * 256 + 0) = BtnDown
  /\ LineBuffer 512 m (Cursor 512 m) <> SPACE
  /\ Cursor 512 (tick 512 (fun _ => 255) 100 0 (tick 512 (fun _ => 255) 0 1 m))
     = Cursor 512 m.
Proof.
  cbv zeta.
  set (m := Nat.iter 2 (tick 512 (fun _ => 255) 100 0)
              (initialize_data_space 512 (fun _ => 0))).
  assert (B100 : is_byte 100) by (unfold is_byte; lia).
  assert (B0 : is_byte 0) by (unfold is_byte; lia).
  assert (B1 : is_byte 1) by (unfold is_byte; lia).
  assert (Hr : reachable 512 (fun _ => 255) 1 m).
  { subst m. cbn [Nat.iter nat_rect].
    repeat (apply reachable_tick; [| exact B100 | exact B0]).
    apply reach_start. }
  assert (Hn : LineBuffer 512 m (Cursor 512 m) <> SPACE)
    by (vm_compute; discriminate).
  split; [exact Hr |]. split; [exact B100 |]. split; [exact B0 |].
  split; [exact B0 |]. split; [exact B1 |]. split; [reflexivity |].
  split; [reflexivity |]. split; [exact Hn |].
  exact (proj1 (down_then_up_round_trip 512 DSEG_0x200 (fun _ => 255) 1
                  100 0 0 1 m Hr B100 B0 B0 B1 eq_refl eq_refl Hn)).
Defined.

(** Right is a sample of 0, Left a sample of 0x200. *)
Lemma right_left_round_trip_witness :
  let m := initialize_data_space 512 (fun _ => 0) in
  reachable 512 (fun _ => 255) 1 m
  /\ is_byte 0 /\ is_byte 2
  /\ threshold_decode (0 * 256 + 0) = BtnRight
  /\ threshold_decode (2 * 256 + 0) = BtnLeft
  /\ Cursor 512 m <> 15
  /\ Cursor 512 (tick 512 (fun _ => 255) 0 2 (tick 512 (fun _ => 255) 0 0 m))
     = Cursor 512 m.
Proof.
  cbv zeta.
  set (m := initialize_data_space 512 (fun _ => 0)).
  assert (B0 : is_byte 0) by (unfold is_byte; lia).
  assert (B2 : is_byte 2) by (unfold is_byte; lia).
  assert (Hr : reachable 512 (fun _ => 255) 1 m) by apply reach_start.
  assert (Hn : Cursor 512 m <> 15) by (vm_compute; discriminate).
  split; [exact Hr |]. split; [exact B0 |]. split; [exact B2 |].
  split; [reflexivity |]. split; [reflexivity |]. split; [exact Hn |].
  exact (proj1 (right_left_round_trip 512 DSEG_0x200 (fun _ => 255) 1
                  0 0 0 2 m Hr B0 B0 B0 B2 eq_refl eq_refl) Hn).
Defined.

(** Right held over 20 ticks from column 0. *)
Lemma cursor_ticks_saturate_witness :
  let m := initialize_data_space 512 (fun _ => 0) in
  reachable 512 (fun _ => 255) 1 m
  /\ is_byte 0 /\ is_byte 2
  /\ threshold_decode (0 * 256 + 0) = BtnRight
  /\ threshold_decode (2 * 256 + 0) = BtnLeft
  /\ Cursor 512 (Nat.iter 20 (tick 512 (fun _ => 255) 0 0) m)
     = Z.min 15 (Cursor 512 m + Z.of_nat 20).
Proof.
  cbv zeta.
  set (m := initialize_data_space 512 (fun _ => 0)).
  assert (B0 : is_byte 0) by (unfold is_byte; lia).
  assert (B2 : is_byte 2) by (unfold is_byte; lia).
  assert (Hr : reachable 512 (fun _ => 255) 1 m) by apply reach_start.
  split; [exact Hr |]. split; [exact B0 |]. split; [exact B2 |].
  split; [reflexivity |]. split; [reflexivity |].
  exact (proj1 (cursor_ticks_saturate 512 DSEG_0x200 (fun _ => 255) 1
                  0 0 0 2 m 20 Hr B0 B0 B0 B2 eq_refl eq_refl)).
Defined.

(** Up held over 41 ticks from the blank column 0. *)
Lemma up_ticks_saturate_witness :
  let m := initialize_data_space 512 (fun _ => 0) in
  reachable 512 (fun _ => 255) 1 m
  /\ is_byte 100 /\ is_byte 0
  /\ threshold_decode (0 * 256 + 100) = BtnUp
  /\ LineBuffer 512 m (Cursor 512 m) = SPACE
  /\ PerColumnIndex 512 (Nat.iter 41 (tick 512 (fun _ => 255) 100 0) m)
       (Cursor 512 m)
     = Z.min 37 (Z.of_nat 40).
Proof.
  cbv zeta.
  set (m := initialize_data_space 512 (fun _ => 0)).
  assert (B100 : is_byte 100) by (unfold is_byte; lia).
  assert (B0 : is_byte 0) by (unfold is_byte; lia).
  assert (Hr : reachable 512 (fun _ => 255) 1 m) by apply reach_start.
  assert (Hs : LineBuffer 512 m (Cursor 512 m) = SPACE) by reflexivity.
  split; [exact Hr |]. split; [exact B100 |]. split; [exact B0 |].
  split; [reflexivity |]. split; [exact Hs |].
  destruct (proj2 (up_ticks_saturate 512 DSEG_0x200 (fun _ => 255) 1
                     100 0 m 40 Hr B100 B0 eq_refl) Hs) as (_ & H & _).
  exact H.
Defined.

(** Down held over 5 ticks from 'c' at index 2. *)
Lemma down_ticks_saturate_witness :
  let m := Nat.iter 3 (tick 512 (fun _ => 255) 100 0)
             (initialize_data_space 512 (fun _ => 0)) in
  reachable 512 (fun _ => 255) 1 m
  /\ is_byte 0 /\ is_byte 1
  /\ threshold_decode (1 * 256 + 0) = BtnDown
  /\ PerColumnIndex 512 (Nat.iter 5 (tick 512 (fun _ => 255) 0 1) m)
       (Cursor 512 m)
     = Z.max 0 (PerColumnIndex 512 m (Cursor 512 m) - Z.of_nat 5).
Proof.
  cbv zeta.
  set (m := Nat.iter 3 (tick 512 (fun _ => 255) 100 0)
              (initialize_data_space 512 (fun _ => 0))).
  assert (B100 : is_byte 100) by (unfold is_byte; lia).
  assert (B0 : is_byte 0) by (unfold is_byte; lia).
  assert (B1 : is_byte 1) by (unfold is_byte; lia).
  assert (Hr : reachable 512 (fun _ => 255) 1 m).
  { subst m. cbn [Nat.iter nat_rect].
    repeat (apply reachable_tick; [| exact B100 | exact B0]).
    apply reach_start. }
  split; [exact Hr |]. split; [exact B0 |]. split; [exact B1 |].
  split; [reflexivity |].
  destruct (down_ticks_saturate 512 DSEG_0x200 (fun _ => 255) 1
              0 1 m 5 Hr B0 B1 eq_refl) as (_ & H & _).
  exact H.
Defined.

Lemma polling_loop_in_display_witness :
  let m := initialize_data_space 512 (fun _ => 0) in
  let out := [lcd_gotoxy 1 15; lcd_putchar DASH; lcd_gotoxy 0 0; lcd_putchar SPACE] in
  0 <= Cursor 512 m <= 15
  /\ polling_loop 512 1 2 m = Some (m, out)
  /\ Forall lcd_in_range out.
Proof.
  cbv zeta.
  assert (Hc : 0 <= Cursor 512 (initialize_data_space 512 (fun _ => 0)) <= 15)
    by (vm_compute; split; discriminate).
  assert (H : polling_loop 512 1 2 (initialize_data_space 512 (fun _ => 0))
              = Some (initialize_data_space 512 (fun _ => 0),
                      [lcd_gotoxy 1 15; lcd_putchar DASH;
                       lcd_gotoxy 0 0; lcd_putchar SPACE]))
    by (vm_compute; reflexivity).
  split; [exact Hc |]. split; [exact H |].
  exact (polling_loop_in_display 512 1 2 _ _ _ Hc H).
Defined.

(** Up sampled, one serviced pass, then Up held over three more ticks. *)
Lemma held_button_no_redraw_witness :
  let m := initialize_data_space 512 (fun _ => 0) in
  let m1 := tick 512 (fun _ => 255) 100 0 m in
  let m2 := sts (LAST_BUTTON_PRESSED 512) UP m1 in
  let out := [lcd_gotoxy 1 15; lcd_putchar ASTERISK] ++ clear_lcd_row 1
             ++ [lcd_gotoxy 1 2; lcd_putchar UP; lcd_gotoxy 0 0; lcd_putchar 97] in
  let m3 := Nat.iter 3 (tick 512 (fun _ => 255) 100 0) m2 in
  is_byte 100 /\ is_byte 0
  /\ threshold_decode (0 * 256 + 100) <> BtnNone
  /\ 0 <= Cursor 512 m <= 15
  /\ polling_loop 512 1 2 m1 = Some (m2, out)
  /\ polling_loop 512 1 2 m3
     = Some (m3, [lcd_gotoxy 1 15; lcd_putchar ASTERISK] ++ set_counter 512 m3).
Proof.
  cbv zeta.
  assert (B100 : is_byte 100) by (unfold is_byte; lia).
  assert (B0 : is_byte 0) by (unfold is_byte; lia).
  assert (Hd : threshold_decode (0 * 256 + 100) <> BtnNone) by discriminate.
  assert (Hc : 0 <= Cursor 512 (initialize_data_space 512 (fun _ => 0)) <= 15)
    by (vm_compute; split; discriminate).
  assert (Hp : polling_loop 512 1 2
                 (tick 512 (fun _ => 255) 100 0 (initialize_data_space 512 (fun _ => 0)))
               = Some (sts (LAST_BUTTON_PRESSED 512) UP
                         (tick 512 (fun _ => 255) 100 0
                            (initialize_data_space 512 (fun _ => 0))),
                       [lcd_gotoxy 1 15; lcd_putchar ASTERISK] ++ clear_lcd_row 1
                       ++ [lcd_gotoxy 1 2; lcd_putchar UP;
                           lcd_gotoxy 0 0; lcd_putchar 97]))
    by (vm_compute; reflexivity).
  split; [exact B100 |]. split; [exact B0 |]. split; [exact Hd |].
  split; [exact Hc |]. split; [exact Hp |].
  exact (held_button_no_redraw 512 DSEG_0x200 (fun _ => 255) 1 100 0 2 _ _ _ 3
           B100 B0 Hd Hc Hp).
Defined.

(** Up is current and not yet drawn; Right is sampled while the routine
    runs: 'R' is written at column 2, the column of Up. *)
Lemma indicator_letter_of_later_sample_witness :
  let m := timer1 512 100 0 (initialize_data_space 512 (fun _ => 0)) in
  let m1 := timer1 512 0 0 m in
  is_byte 0
  /\ lds (CURRENT_BUTTON_PRESSED 512) m <> lds (LAST_BUTTON_PRESSED 512) m
  /\ currentButton 512 m <> BtnNone
  /\ threshold_decode (0 * 256 + 0) <> BtnNone
  /\ test_which_button_irq 512 (fun _ => 255) [Timer1 0 0] [] m
     = (sts (LAST_BUTTON_PRESSED 512) (lds (CURRENT_BUTTON_PRESSED 512) m1) m1,
        clear_lcd_row 1
        ++ [lcd_gotoxy 1 (indicator_column (currentButton 512 m));
            lcd_putchar (lds (CURRENT_BUTTON_PRESSED 512) m1)])
  /\ indicator_column (currentButton 512 m) = 2
  /\ lds (CURRENT_BUTTON_PRESSED 512) m1 = RIGHT.
Proof.
  cbv zeta.
  set (m := timer1 512 100 0 (initialize_data_space 512 (fun _ => 0))).
  assert (B0 : is_byte 0) by (unfold is_byte; lia).
  assert (H1 : lds (CURRENT_BUTTON_PRESSED 512) m <> lds (LAST_BUTTON_PRESSED 512) m)
    by (vm_compute; discriminate).
  assert (H2 : currentButton 512 m <> BtnNone) by (vm_compute; discriminate).
  assert (H3 : threshold_decode (0 * 256 + 0) <> BtnNone) by discriminate.
  split; [exact B0 |]. split; [exact H1 |]. split; [exact H2 |].
  split; [exact H3 |].
  split; [exact (proj2 (indicator_letter_of_later_sample 512 (fun _ => 255)
                          0 0 m B0 B0 H1 H2 H3)) |].
  split; vm_compute; reflexivity.
Defined.
